(** * Trade-Simulator: the metrics calculator and the WebSocket adapter

    A shallow embedding of [Frontend/src/lib/metrics-calculator.ts],
    [Frontend/src/lib/websocket.ts] and [Frontend/src/types/trading.ts],
    with the message handler of [Frontend/src/components/TradingSimulator.tsx]
    and the mock order book.

    The TypeScript code computes with JavaScript numbers.  The embedding is
    written once, over an interface [JsNumber] of the operations the code
    uses, and read at two instances:

    - [Double.js]: IEEE 754 binary64, the numbers the runtime really has
      (Rocq's primitive floats).  Everything computes, so concrete calls are
      evaluated exactly as the runtime evaluates them.
    - [Ideal.js]: the real numbers extended with [+Infinity], [-Infinity] and
      [NaN].  Arithmetic is exact: no rounding, no overflow, and zero carries
      no sign.  The algebraic laws of the calculator are proved here; they
      say nothing about the last bits of a binary64 result, nor about the
      inputs on which binary64 overflows.  Where rounding or overflow
      decides a statement, it is settled at [Double.js], or at every
      instance.

    Exceptions are explicit ([completion]); the draw of [Math.random()] and
    the readings of [performance.now()] are arguments; what the adapter does
    to the outside is a list of [effect]s. *)

From Stdlib Require Import ZArith QArith Reals Lra Bool List String Ascii.
From Stdlib Require Import Sorted Permutation.
From Stdlib Require PrimFloat FloatOps SpecFloat.
Import ListNotations.

Set Implicit Arguments.

(* ===================================================================== *)
(** * 1. JavaScript numbers *)
(* ===================================================================== *)

(** The operations of the language and of [Math] that the two source files
    apply to numbers. [lit q] is the Number value of a decimal literal. *)
Class JsNumber : Type := {
  number : Type;
  lit : Q -> number;
  NaN : number;
  Infinity : number;
  neg : number -> number;
  add : number -> number -> number;
  sub : number -> number -> number;
  mul : number -> number -> number;
  div : number -> number -> number;
  Math_sqrt : number -> number;
  Math_min : number -> number -> number;
  Math_max : number -> number -> number;
  gt : number -> number -> bool;
  ToBoolean : number -> bool
}.

Arguments lit {_} q%_Q.

Declare Scope js_scope.
Delimit Scope js_scope with js.
Notation "x + y" := (add x y) : js_scope.
Notation "x - y" := (sub x y) : js_scope.
Notation "x * y" := (mul x y) : js_scope.
Notation "x / y" := (div x y) : js_scope.
Notation "- x" := (neg x) : js_scope.
Notation "x >? y" := (gt x y) (at level 70, no associativity) : js_scope.
Notation "x '||' y" := (if ToBoolean x then x else y)
  (at level 50, left associativity) : js_scope.

(** ** 1.1 Exact arithmetic on the extended reals *)

Module Ideal.

Inductive xreal : Type :=
| Fin (r : R)
| PInf
| NInf
| NotANumber.

(** Sign of a real, by the decidable order of [R]. *)
Definition Rsign (r : R) : comparison :=
  if Rlt_dec 0 r then Gt else if Rlt_dec r 0 then Lt else Eq.

(** The infinity of a given sign; a zero factor gives [NaN]. *)
Definition signed (c : comparison) : xreal :=
  match c with Gt => PInf | Lt => NInf | Eq => NotANumber end.

Definition xneg (x : xreal) : xreal :=
  match x with
  | Fin r => Fin (- r)
  | PInf => NInf
  | NInf => PInf
  | NotANumber => NotANumber
  end.

Definition xadd (x y : xreal) : xreal :=
  match x, y with
  | NotANumber, _ | _, NotANumber => NotANumber
  | Fin a, Fin b => Fin (a + b)
  | PInf, NInf | NInf, PInf => NotANumber
  | PInf, _ | _, PInf => PInf
  | NInf, _ | _, NInf => NInf
  end.

Definition xsub (x y : xreal) : xreal := xadd x (xneg y).

Definition xmul (x y : xreal) : xreal :=
  match x, y with
  | NotANumber, _ | _, NotANumber => NotANumber
  | Fin a, Fin b => Fin (a * b)
  | Fin a, PInf | PInf, Fin a => signed (Rsign a)
  | Fin a, NInf | NInf, Fin a => signed (CompOpp (Rsign a))
  | PInf, PInf | NInf, NInf => PInf
  | PInf, NInf | NInf, PInf => NInf
  end.

(** A zero divisor counts as [+0]: [a / 0] is the infinity of the sign of
    [a], and [0 / 0] is [NaN]. *)
Definition xdiv (x y : xreal) : xreal :=
  match x, y with
  | NotANumber, _ | _, NotANumber => NotANumber
  | Fin a, Fin b => if Req_dec_T b 0 then signed (Rsign a) else Fin (a / b)
  | Fin _, (PInf | NInf) => Fin 0
  | PInf, Fin b => if Rlt_dec b 0 then NInf else PInf
  | NInf, Fin b => if Rlt_dec b 0 then PInf else NInf
  | (PInf | NInf), (PInf | NInf) => NotANumber
  end.

Definition xsqrt (x : xreal) : xreal :=
  match x with
  | Fin a => if Rlt_dec a 0 then NotANumber else Fin (R_sqrt.sqrt a)
  | PInf => PInf
  | NInf | NotANumber => NotANumber
  end.

(** [x < y]; every comparison with [NaN] is false. *)
Definition xlt (x y : xreal) : bool :=
  match x, y with
  | NotANumber, _ | _, NotANumber => false
  | Fin a, Fin b => if Rlt_dec a b then true else false
  | NInf, NInf => false
  | NInf, _ => true
  | PInf, _ => false
  | Fin _, PInf => true
  | Fin _, NInf => false
  end.

Definition xmin (x y : xreal) : xreal :=
  match x, y with
  | NotANumber, _ | _, NotANumber => NotANumber
  | _, _ => if xlt y x then y else x
  end.

Definition xmax (x y : xreal) : xreal :=
  match x, y with
  | NotANumber, _ | _, NotANumber => NotANumber
  | _, _ => if xlt x y then y else x
  end.

(** Only [0] and [NaN] are falsy. *)
Definition xtruthy (x : xreal) : bool :=
  match x with
  | Fin r => if Req_dec_T r 0 then false else true
  | PInf | NInf => true
  | NotANumber => false
  end.

Definition js : JsNumber := {|
  number := xreal;
  lit := fun q => Fin (Q2R q);
  NaN := NotANumber;
  Infinity := PInf;
  neg := xneg;
  add := xadd;
  sub := xsub;
  mul := xmul;
  div := xdiv;
  Math_sqrt := xsqrt;
  Math_min := xmin;
  Math_max := xmax;
  gt := fun x y => xlt y x;
  ToBoolean := xtruthy
|}.

End Ideal.

(** ** 1.2 IEEE 754 binary64 *)

Module Double.

Import FloatOps SpecFloat.

(** The double nearest to the rational [q] (ties to even): one correctly
    rounded division of the numerator by the denominator. *)
Definition of_Q (q : Q) : PrimFloat.float :=
  match Qnum q with
  | Z0 => PrimFloat.zero
  | Zpos n =>
      SF2Prim (SFdiv prec emax (S754_finite false n 0) (S754_finite false (Qden q) 0))
  | Zneg n =>
      SF2Prim (SFdiv prec emax (S754_finite true n 0) (S754_finite false (Qden q) 0))
  end.

(** [Math.min]: [NaN] if either argument is, and [-0] below [+0]. *)
Definition fmin (x y : PrimFloat.float) : PrimFloat.float :=
  if PrimFloat.is_nan x || PrimFloat.is_nan y then PrimFloat.nan
  else if PrimFloat.ltb y x then y
  else if PrimFloat.ltb x y then x
  else if PrimFloat.get_sign x then x else y.

(** [Math.max]: [NaN] if either argument is, and [+0] above [-0]. *)
Definition fmax (x y : PrimFloat.float) : PrimFloat.float :=
  if PrimFloat.is_nan x || PrimFloat.is_nan y then PrimFloat.nan
  else if PrimFloat.ltb x y then y
  else if PrimFloat.ltb y x then x
  else if PrimFloat.get_sign x then y else x.

Definition js : JsNumber := {|
  number := PrimFloat.float;
  lit := of_Q;
  NaN := PrimFloat.nan;
  Infinity := PrimFloat.infinity;
  neg := PrimFloat.opp;
  add := PrimFloat.add;
  sub := PrimFloat.sub;
  mul := PrimFloat.mul;
  div := PrimFloat.div;
  Math_sqrt := PrimFloat.sqrt;
  Math_min := fmin;
  Math_max := fmax;
  gt := fun x y => PrimFloat.ltb y x;
  ToBoolean := fun x => negb (PrimFloat.is_zero x || PrimFloat.is_nan x)
|}.

End Double.

(* ===================================================================== *)
(** * 2. [parseFloat] *)
(* ===================================================================== *)

(** The global [parseFloat].  A string is the sequence of the bytes of its
    UTF-8 encoding.  Leading white space is dropped, the longest prefix that
    is a [StrDecimalLiteral] is read, and what follows it is ignored.
    Without such a prefix the result is [NaN]. *)

Inductive StringNumericValue : Type :=
| SNaN
| SInfinity (negative : bool)
| SDecimal (negative : bool) (q : Q).

(** The [StrWhiteSpaceChar] of one byte: TAB, LF, VT, FF, CR and SP. *)
Definition is_white_space (c : ascii) : bool :=
  let n := nat_of_ascii c in
  ((9 <=? n) && (n <=? 13) || (n =? 32))%nat.

(** The one of two bytes: U+00A0, encoded [C2 A0]. *)
Definition is_white_space2 (c1 c2 : ascii) : bool :=
  ((nat_of_ascii c1 =? 194) && (nat_of_ascii c2 =? 160))%nat.

(** Those of three bytes: U+1680 ([E1 9A 80]); U+2000 to U+200A, U+2028,
    U+2029 and U+202F ([E2 80 80] to [E2 80 8A], [E2 80 A8], [E2 80 A9] and
    [E2 80 AF]); U+205F ([E2 81 9F]); U+3000 ([E3 80 80]); and U+FEFF
    ([EF BB BF]). *)
Definition is_white_space3 (c1 c2 c3 : ascii) : bool :=
  let n1 := nat_of_ascii c1 in
  let n2 := nat_of_ascii c2 in
  let n3 := nat_of_ascii c3 in
  ((n1 =? 225) && (n2 =? 154) && (n3 =? 128)
   || (n1 =? 226) && (n2 =? 128)
      && ((128 <=? n3) && (n3 <=? 138)
          || (n3 =? 168) || (n3 =? 169) || (n3 =? 175))
   || (n1 =? 226) && (n2 =? 129) && (n3 =? 159)
   || (n1 =? 227) && (n2 =? 128) && (n3 =? 128)
   || (n1 =? 239) && (n2 =? 187) && (n3 =? 191))%nat.

Fixpoint TrimStart (s : string) : string :=
  match s with
  | String c1 s1 =>
      if is_white_space c1 then TrimStart s1
      else
        match s1 with
        | String c2 s2 =>
            if is_white_space2 c1 c2 then TrimStart s2
            else
              match s2 with
              | String c3 s3 =>
                  if is_white_space3 c1 c2 c3 then TrimStart s3 else s
              | EmptyString => s
              end
        | EmptyString => s
        end
  | EmptyString => s
  end.

Definition digit_of (c : ascii) : option Z :=
  let n := Z.of_nat (nat_of_ascii c) in
  if ((48 <=? n) && (n <=? 57))%Z then Some (n - 48)%Z else None.

(** Reads a run of decimal digits onto the accumulator [acc]; returns the
    new accumulator, the number of digits read and the rest of the string. *)
Fixpoint DecimalDigits (s : string) (acc : Z) (n : nat) : Z * nat * string :=
  match s with
  | String c s' =>
      match digit_of c with
      | Some d => DecimalDigits s' (10 * acc + d)%Z (S n)
      | None => (acc, n, s)
      end
  | EmptyString => (acc, n, s)
  end.

(** The value of an [ExponentPart] at the head of [s], and 0 when [s] does
    not start with one. *)
Definition ExponentPart (s : string) : Z :=
  match s with
  | String c s' =>
      if (Ascii.eqb c "e" || Ascii.eqb c "E")%bool then
        let '(negative, s'') :=
          match s' with
          | String "+"%char t => (false, t)
          | String "-"%char t => (true, t)
          | _ => (false, s')
          end in
        let '(v, n, _) := DecimalDigits s'' 0 0 in
        match n with
        | O => 0%Z
        | S _ => if negative then (- v)%Z else v
        end
      else 0%Z
  | EmptyString => 0%Z
  end.

(** [m * 10^e] as a rational. *)
Definition scale10 (m e : Z) : Q :=
  if (0 <=? e)%Z then (m * 10 ^ e)%Z # 1 else m # Z.to_pos (10 ^ (- e)).

Definition StrUnsignedDecimalLiteral (negative : bool) (s : string)
  : StringNumericValue :=
  if String.prefix "Infinity" s then SInfinity negative
  else
    let '(ip, ni, r1) := DecimalDigits s 0 0 in
    match r1 with
    | String "."%char r2 =>
        let '(m, nf, r3) := DecimalDigits r2 ip 0 in
        match (ni + nf)%nat with
        | O => SNaN
        | S _ => SDecimal negative (scale10 m (ExponentPart r3 - Z.of_nat nf))
        end
    | _ =>
        match ni with
        | O => SNaN
        | S _ => SDecimal negative (scale10 ip (ExponentPart r1))
        end
    end.

Definition StrDecimalLiteral (s : string) : StringNumericValue :=
  match s with
  | String "+"%char s' => StrUnsignedDecimalLiteral false s'
  | String "-"%char s' => StrUnsignedDecimalLiteral true s'
  | _ => StrUnsignedDecimalLiteral false s
  end.

Definition parseFloat {N : JsNumber} (s : string) : number :=
  match StrDecimalLiteral (TrimStart s) with
  | SNaN => NaN
  | SInfinity false => Infinity
  | SInfinity true => neg Infinity
  | SDecimal false q => lit q
  | SDecimal true q => neg (lit q)
  end.

(* ===================================================================== *)
(** * 3. Data model ([types/trading.ts]) *)
(* ===================================================================== *)

(** A level is the pair [[price, size]] of decimal strings. *)
Definition level : Type := (string * string)%type.

Record OrderbookData : Type := {
  timestamp : string;
  exchange : string;
  symbol : string;
  asks : list level;
  bids : list level
}.

(* ===================================================================== *)
(** * 4. Exceptions and property access *)
(* ===================================================================== *)

(** A thrown error object: of one of the two built-in classes that the
    runtime raises in this code, or of a class that a program defines. *)
Inductive exception : Type :=
| TypeError
| SyntaxError
| UserError (class : string).

(** The outcome of evaluating an expression: its value, or the exception
    that it threw. *)
Inductive completion (A : Type) : Type :=
| Normal (a : A)
| Throw (e : exception).

Arguments Normal {A} a.
Arguments Throw {A} e.

Definition bind {A B : Type} (c : completion A) (k : A -> completion B)
  : completion B :=
  match c with
  | Normal a => k a
  | Throw e => Throw e
  end.

Notation "x <- c ;; k" := (bind c (fun x => k))
  (at level 61, c at next level, right associativity).

(** [a[0]] on an array: [undefined] ([None]) when the array is empty. *)
Definition element0 {A : Type} (a : list A) : option A :=
  match a with
  | x :: _ => Some x
  | [] => None
  end.

(** [v[0]] on the result of an array access: reading a property of
    [undefined] throws a [TypeError]. *)
Definition price_of (v : option level) : completion string :=
  match v with
  | Some l => Normal (fst l)
  | None => Throw TypeError
  end.

Section Calculator.

Context {N : JsNumber}.

Record SimulationResults : Type := {
  slippage : number;
  fees : number;
  marketImpact : number;
  netCost : number;
  makerProportion : number;
  takerProportion : number;
  internalLatency : number
}.

(** The field [exchange] of the source is [params_exchange] here, the name
    being taken by [OrderbookData]. *)
Record MetricsParams : Type := {
  orderbook : OrderbookData;
  quantity : number;
  orderType : string;
  volatility : number;
  feeTier : string;
  params_exchange : string
}.

(** [array.reduce((sum, x) => sum + f(x), 0)]. *)
Definition reduce_sum (f : level -> number) (a : list level) : number :=
  fold_left (fun sum x => (sum + f x)%js) a (lit 0).

(** [a.slice(0, 5)]. *)
Definition slice_0_5 {A : Type} (a : list A) : list A := firstn 5 a.

(* ===================================================================== *)
(** * 5. The calculator ([lib/metrics-calculator.ts]) *)
(* ===================================================================== *)

Definition calculateSlippage (orderbook : OrderbookData) (quantity : number)
  : number :=
  let topAsks := slice_0_5 (asks orderbook) in
  let topBids := slice_0_5 (bids orderbook) in
  let askVolume := reduce_sum (fun level => parseFloat (snd level)) topAsks in
  let bidVolume := reduce_sum (fun level => parseFloat (snd level)) topBids in
  let imbalance := ((bidVolume - askVolume) / (bidVolume + askVolume))%js in
  let baseSlippage := lit 0.05 in
  let sizeImpact := (lit 0.001 * Math_sqrt quantity)%js in
  let imbalanceEffect := (- lit 0.1 * imbalance)%js in
  (baseSlippage + sizeImpact + imbalanceEffect)%js.

(** ** Property lookup on the object literal [feeRates]

    [feeRates[feeTier]] reads an own property of the literal, or else a
    property inherited from [Object.prototype], or else [undefined]. *)

Inductive value : Type :=
| Undefined
| Number (n : number)
| Inherited (name : string).

(** The property names of [Object.prototype]; each holds a function, and
    [__proto__] the prototype object itself. *)
Definition Object_prototype : list string :=
  ["constructor"; "hasOwnProperty"; "isPrototypeOf"; "propertyIsEnumerable";
   "toLocaleString"; "toString"; "valueOf"; "__proto__";
   "__defineGetter__"; "__defineSetter__"; "__lookupGetter__";
   "__lookupSetter__"]%string.

Fixpoint own_property (o : list (string * number)) (key : string)
  : option number :=
  match o with
  | (k, v) :: o' => if String.eqb k key then Some v else own_property o' key
  | [] => None
  end.

Definition Get (o : list (string * number)) (key : string) : value :=
  match own_property o key with
  | Some v => Number v
  | None =>
      if existsb (String.eqb key) Object_prototype then Inherited key
      else Undefined
  end.

(** Truthiness of a value: objects are truthy, [undefined] is falsy. *)
Definition truthy (v : value) : bool :=
  match v with
  | Undefined => false
  | Number n => ToBoolean n
  | Inherited _ => true
  end.

(** The operand conversion of [*]: a function or plain object converts
    through its string form, which is not a numeric literal. *)
Definition ToNumber (v : value) : number :=
  match v with
  | Number n => n
  | Undefined | Inherited _ => NaN
  end.

Definition calculateFees (quantity : number) (feeTier : string) : number :=
  let feeRates :=
    [("tier1", lit 0.001); ("tier2", lit 0.0008); ("tier3", lit 0.0005)]%string in
  let feeRate :=
    if truthy (Get feeRates feeTier) then Get feeRates feeTier
    else Get feeRates "tier1" in
  (quantity * ToNumber feeRate)%js.

Definition calculateEnhancedMarketImpact
  (orderbook : OrderbookData) (quantity volatility : number)
  : completion number :=
  bestAsk <- price_of (element0 (asks orderbook)) ;;
  let bestAsk := parseFloat bestAsk in
  bestBid <- price_of (element0 (bids orderbook)) ;;
  let bestBid := parseFloat bestBid in
  let midPrice := ((bestAsk + bestBid) / lit 2)%js in
  let bids := bids orderbook in
  let asks := asks orderbook in
  let bidLiquidity :=
    reduce_sum (fun bid => parseFloat (fst bid) * parseFloat (snd bid))%js bids in
  let askLiquidity :=
    reduce_sum (fun ask => parseFloat (fst ask) * parseFloat (snd ask))%js asks in
  let totalLiquidity := (bidLiquidity + askLiquidity)%js in
  let bidDepth := reduce_sum (fun bid => parseFloat (snd bid)) bids in
  let askDepth := reduce_sum (fun ask => parseFloat (snd ask)) asks in
  let totalDepth := (bidDepth + askDepth)%js in
  let relativeOrderSize :=
    if (totalDepth >? lit 0)%js then (quantity / totalDepth)%js else lit 0 in
  let permanentImpactFactor := (lit 0.1 * volatility)%js in
  let temporaryImpactFactor := lit 0.05 in
  let permanentImpact :=
    (permanentImpactFactor * relativeOrderSize * midPrice)%js in
  let temporaryImpact :=
    (temporaryImpactFactor * Math_sqrt relativeOrderSize * midPrice
     * (lit 1 + volatility))%js in
  let marketImpact := (permanentImpact + temporaryImpact)%js in
  Normal ((marketImpact / midPrice) * lit 100)%js.

(** The object [{ makerProportion, takerProportion }] is returned as the
    pair of its two fields, in this order. *)
Definition estimateImprovedMakerTakerProportion
  (orderbook : OrderbookData) (quantity : number) (orderType : string)
  (volatility : number) : completion (number * number) :=
  let bids := bids orderbook in
  let asks := asks orderbook in
  bestAsk <- price_of (element0 asks) ;;
  let bestAsk := parseFloat bestAsk in
  bestBid <- price_of (element0 bids) ;;
  let bestBid := parseFloat bestBid in
  let spread := (bestAsk - bestBid)%js in
  let midPrice := ((bestAsk + bestBid) / lit 2)%js in
  let bidDepth := reduce_sum (fun bid => parseFloat (snd bid)) bids in
  let askDepth := reduce_sum (fun ask => parseFloat (snd ask)) asks in
  let relSpread :=
    if (midPrice >? lit 0)%js then (spread / midPrice)%js else lit 0 in
  let relOrderSize :=
    if (askDepth * midPrice >? lit 0)%js
    then (quantity / (askDepth * midPrice))%js else lit 1 in
  let baseRate := if String.eqb orderType "market" then lit 0.95 else lit 0.5 in
  let sizeImpact := Math_min (lit 0.25) (relOrderSize * lit 0.5)%js in
  let volatilityImpact := Math_min (lit 0.15) (volatility * lit 0.3)%js in
  let spreadImpact := Math_max (- lit 0.2)%js (- relSpread * lit 20)%js in
  let depthImbalance :=
    ((bidDepth - askDepth) / ((bidDepth + askDepth) || lit 1))%js in
  let balanceImpact :=
    Math_min (Math_max (- lit 0.1)%js (depthImbalance * lit 0.1)%js) (lit 0.1) in
  let takerRatio :=
    Math_min (lit 1.0)
      (Math_max (lit 0)
         (baseRate + sizeImpact + volatilityImpact + spreadImpact
          + balanceImpact)%js) in
  let takerRatio :=
    if (volatility >? lit 0.8)%js
    then Math_min (lit 1.0) (takerRatio + lit 0.15)%js else takerRatio in
  let takerProportion := (takerRatio * lit 100)%js in
  let makerProportion := (lit 100 - takerProportion)%js in
  Normal (makerProportion, takerProportion).

(** [Math_random] is the value that the call of [Math.random()] returns. *)
Definition calculateMetrics (Math_random : number) (params : MetricsParams)
  : completion SimulationResults :=
  let '(Build_MetricsParams orderbook quantity orderType volatility feeTier _) :=
    params in
  bestAsk <- price_of (element0 (asks orderbook)) ;;
  let bestAsk := parseFloat bestAsk in
  bestBid <- price_of (element0 (bids orderbook)) ;;
  let bestBid := parseFloat bestBid in
  let midPrice := ((bestAsk + bestBid) / lit 2)%js in
  let slippage := calculateSlippage orderbook quantity in
  let fees := calculateFees quantity feeTier in
  marketImpact <-
    calculateEnhancedMarketImpact orderbook quantity volatility ;;
  let netCost :=
    ((quantity * slippage / lit 100) + fees
     + (quantity * marketImpact / lit 100))%js in
  proportions <-
    estimateImprovedMakerTakerProportion orderbook quantity orderType
      volatility ;;
  let '(makerProportion, takerProportion) := proportions in
  let internalLatency := (Math_random * lit 30 + lit 10)%js in
  Normal (Build_SimulationResults slippage fees marketImpact netCost
            makerProportion takerProportion internalLatency).

End Calculator.

Arguments SimulationResults : clear implicits.
Arguments MetricsParams : clear implicits.

Definition mockOrderbookData : OrderbookData := {|
  timestamp := "2025-05-04T10:39:13Z";
  exchange := "OKX";
  symbol := "BTC-USDT-SWAP";
  asks :=
    [("95445.5", "9.06"); ("95448.0", "2.05"); ("95450.1", "5.32");
     ("95451.8", "7.14"); ("95455.0", "10.53"); ("95457.2", "3.87");
     ("95458.9", "6.25"); ("95460.4", "4.92"); ("95462.7", "8.44");
     ("95464.3", "1.78"); ("95466.1", "5.99"); ("95468.5", "3.01");
     ("95470.2", "6.33"); ("95472.7", "2.45"); ("95475.0", "9.21")]%string;
  bids :=
    [("95445.4", "1104.23"); ("95445.3", "0.02"); ("95441.2", "5.64");
     ("95440.0", "8.32"); ("95437.5", "12.47"); ("95435.8", "4.26");
     ("95432.3", "7.58"); ("95430.6", "3.19"); ("95428.9", "9.75");
     ("95427.1", "2.88"); ("95425.4", "6.03"); ("95424.2", "4.17");
     ("95422.8", "5.92"); ("95420.1", "3.54"); ("95418.7", "8.10")]%string
|}.

(* ===================================================================== *)
(** * 6. The message handler of the simulator ([TradingSimulator.tsx]) *)
(* ===================================================================== *)

Module TradingSimulator.
Section Component.

Context {N : JsNumber}.

(** The React state that [handleWebSocketMessage] reads and sets. *)
Record state : Type := {
  orderbookData : option OrderbookData;
  latency : number;
  exchange : string;
  orderType : string;
  quantity : number;
  volatility : number;
  feeTier : string;
  results : option (SimulationResults N)
}.

(** [useState] defaults. *)
Definition initial : state := {|
  orderbookData := None;
  latency := lit 0;
  exchange := "OKX";
  orderType := "market";
  quantity := lit 100;
  volatility := lit 0.5;
  feeTier := "tier1";
  results := None
|}.

(** The handler sets the book and the latency, then the results; when
    [calculateMetrics] throws, the first two stay set and the exception
    leaves the handler. *)
Definition handleWebSocketMessage (Math_random : number) (st : state)
  (data : OrderbookData) (processingTime : number)
  : state * completion unit :=
  let st1 :=
    {| orderbookData := Some data;
       latency := processingTime;
       exchange := exchange st;
       orderType := orderType st;
       quantity := quantity st;
       volatility := volatility st;
       feeTier := feeTier st;
       results := results st |} in
  match
    calculateMetrics Math_random
      (Build_MetricsParams data (quantity st) (orderType st) (volatility st)
         (feeTier st) (exchange st))
  with
  | Normal simulationResults =>
      ({| orderbookData := orderbookData st1;
          latency := latency st1;
          exchange := exchange st1;
          orderType := orderType st1;
          quantity := quantity st1;
          volatility := volatility st1;
          feeTier := feeTier st1;
          results := Some simulationResults |}, Normal tt)
  | Throw e => (st1, Throw e)
  end.

End Component.
End TradingSimulator.

(* ===================================================================== *)
(** * 7. The adapter ([lib/websocket.ts]) *)
(* ===================================================================== *)

Inductive ReadyState : Type := CONNECTING | OPEN | CLOSING | CLOSED.

Record WebSocket : Type := {
  url : string;
  readyState : ReadyState
}.

Section Adapter.

Context {N : JsNumber}.

(** What the adapter does to the outside: calls of the registered callbacks,
    console output, and [close()] on a socket. *)
Inductive effect : Type :=
| console_error (message : string)
| onMessage_called (data : OrderbookData) (processingTime : number)
| onOpen_called
| onError_called
| onClose_called
| socket_close (s : WebSocket).

(** [onMessage] may throw; the optional callbacks are given by whether they
    are registered, and a call of one is recorded as an effect. *)
Record WebSocketManagerOptions : Type := {
  onMessage : OrderbookData -> number -> completion unit;
  onOpen : bool;
  onError : bool;
  onClose : bool
}.

Record WebSocketManager : Type := {
  socket : option WebSocket;
  options : WebSocketManagerOptions
}.

(** The platform: [JSON.parse] read at the type [OrderbookData], and the
    [WebSocket] constructor. Either may throw. *)
Variable JSON_parse : string -> completion OrderbookData.
Variable new_WebSocket : string -> completion WebSocket.

Definition constructor (options : WebSocketManagerOptions) : WebSocketManager :=
  {| socket := None; options := options |}.

Definition when (b : bool) (e : effect) : list effect :=
  if b then [e] else [].

(** [socket.onmessage]; [startTime] and [endTime] are the two readings of
    [performance.now()], the second taken only after a successful parse. *)
Definition onmessage (this : WebSocketManager) (event_data : string)
  (startTime endTime : number) : list effect :=
  match JSON_parse event_data with
  | Normal data =>
      let processingTime := (endTime - startTime)%js in
      match onMessage (options this) data processingTime with
      | Normal _ => [onMessage_called data processingTime]
      | Throw _ =>
          [onMessage_called data processingTime;
           console_error "Error processing message:"]
      end
  | Throw _ => [console_error "Error processing message:"]
  end.

Definition onopen (this : WebSocketManager) : list effect :=
  when (onOpen (options this)) onOpen_called.

Definition onerror (this : WebSocketManager) : list effect :=
  when (onError (options this)) onError_called.

Definition onclose (this : WebSocketManager) : list effect :=
  when (onClose (options this)) onClose_called.

(** [s.close()] as the socket itself shows it afterwards: a connecting or
    open socket is closing, a closing or closed one is as it was. *)
Definition closed_by_call (s : WebSocket) : WebSocket :=
  match readyState s with
  | CONNECTING | OPEN => {| url := url s; readyState := CLOSING |}
  | CLOSING | CLOSED => s
  end.

(** When the constructor throws, the assignment to [this.socket] does not
    happen: the manager keeps the socket on which it has just called
    [close()]. *)
Definition connect (this : WebSocketManager) (url : string)
  : WebSocketManager * list effect :=
  let closing :=
    match socket this with
    | Some s => [socket_close s]
    | None => []
    end in
  match new_WebSocket url with
  | Normal s => ({| socket := Some s; options := options this |}, closing)
  | Throw _ =>
      ({| socket := option_map closed_by_call (socket this);
          options := options this |},
       closing ++ [console_error "WebSocket connection error:"]
       ++ when (onError (options this)) onError_called)
  end.

Definition disconnect (this : WebSocketManager)
  : WebSocketManager * list effect :=
  match socket this with
  | Some s => ({| socket := None; options := options this |}, [socket_close s])
  | None => (this, [])
  end.

Definition isConnected (this : WebSocketManager) : bool :=
  match socket this with
  | Some s => match readyState s with OPEN => true | _ => false end
  | None => false
  end.

(** Events that the platform delivers on the current socket. A message
    comes with the two clock readings its handler takes. *)
Inductive socket_event : Type :=
| open_event
| message_event (data : string) (startTime endTime : number)
| error_event
| close_event.

Definition set_readyState (this : WebSocketManager) (r : ReadyState)
  : WebSocketManager :=
  match socket this with
  | Some s =>
      {| socket := Some {| url := url s; readyState := r |};
         options := options this |}
  | None => this
  end.

(** One event: the platform updates [readyState] on open and on close, and
    the handler that [connect] installed runs. *)
Definition dispatch (this : WebSocketManager) (e : socket_event)
  : WebSocketManager * list effect :=
  match e with
  | open_event => (set_readyState this OPEN, onopen this)
  | message_event data startTime endTime =>
      (this, onmessage this data startTime endTime)
  | error_event => (this, onerror this)
  | close_event => (set_readyState this CLOSED, onclose this)
  end.

(** A stream of events, handled in arrival order. *)
Fixpoint run (this : WebSocketManager) (events : list socket_event)
  : WebSocketManager * list effect :=
  match events with
  | [] => (this, [])
  | e :: events' =>
      let '(this1, out1) := dispatch this e in
      let '(this2, out2) := run this1 events' in
      (this2, out1 ++ out2)
  end.

End Adapter.

(* ===================================================================== *)
(** * The comparisons [<] and [<=] *)
(* ===================================================================== *)

(** [x < y] is [y > x]. *)
Definition lt {N : JsNumber} (x y : number) : bool := gt y x.

(** [x <= y]; false when either side is [NaN]. *)
Class JsOrder (N : JsNumber) : Type := {
  le : number -> number -> bool
}.

Notation "x <? y" := (lt x y) (at level 70, no associativity) : js_scope.
Notation "x <=? y" := (le x y) (at level 70, no associativity) : js_scope.

Module Order.

Definition xleb (x y : Ideal.xreal) : bool :=
  match x, y with
  | Ideal.NotANumber, _ | _, Ideal.NotANumber => false
  | Ideal.Fin a, Ideal.Fin b => if Rle_dec a b then true else false
  | Ideal.NInf, _ => true
  | _, Ideal.PInf => true
  | Ideal.PInf, _ => false
  | Ideal.Fin _, Ideal.NInf => false
  end.

Definition ideal : JsOrder Ideal.js := @Build_JsOrder Ideal.js xleb.

Definition double : JsOrder Double.js :=
  @Build_JsOrder Double.js PrimFloat.leb.

End Order.

(* ===================================================================== *)
(** * The order book chart ([components/OrderbookVisualizer.tsx]) *)
(* ===================================================================== *)

Module OrderbookVisualizer.
Section Component.

Context {N : JsNumber} {O : JsOrder N}.

(** A bar of the chart. *)
Record row : Type := {
  price : number;
  type : string;
  quantity : number;
  total : number
}.

(** [side.slice(0, 10).map(level => ({ price, type, quantity, total }))]. *)
Definition rows (type : string) (side : list level) : list row :=
  map (fun level =>
         {| price := parseFloat (fst level);
            type := type;
            quantity := parseFloat (snd level);
            total := (parseFloat (fst level) * parseFloat (snd level))%js |})
      (firstn 10 side).

(** [array.sort((a, b) => a.price - b.price)].  The sort of the language is
    stable, and a comparison that yields [NaN] counts as a tie.  When no
    price is [NaN] the comparator is consistent and the result is the one
    arrangement that is ascending and keeps ties in their order, which is
    what inserting the elements one after the other gives.  With a [NaN]
    price the language leaves the order to the engine; the definition then
    gives the order of this insertion. *)
Fixpoint insert (r : row) (sorted : list row) : list row :=
  match sorted with
  | [] => [r]
  | r' :: rest =>
      if (price r' - price r >? lit 0)%js then r :: sorted
      else r' :: insert r rest
  end.

Definition sort (a : list row) : list row :=
  fold_left (fun sorted r => insert r sorted) a [].

(** The memo [chartData]; its [midPrice] is computed and not used. *)
Definition chartData (data : OrderbookData) : list row :=
  let asks := rows "ask" (asks data) in
  let bids := rows "bid" (bids data) in
  let bestAsk := match asks with r :: _ => price r | [] => lit 0 end in
  let bestBid := match bids with r :: _ => price r | [] => lit 0 end in
  let midPrice := ((bestAsk + bestBid) / lit 2)%js in
  sort (asks ++ bids).

(** The memo [midPrice]: 0 when a side is empty. *)
Definition midPrice (data : OrderbookData) : number :=
  match asks data, bids data with
  | ask :: _, bid :: _ =>
      let bestAsk := parseFloat (fst ask) in
      let bestBid := parseFloat (fst bid) in
      ((bestAsk + bestBid) / lit 2)%js
  | _, _ => lit 0
  end.



End Component.
End OrderbookVisualizer.

(* ===================================================================== *)
(** * The latency panel ([PerformanceMetrics]) *)
(* ===================================================================== *)

Module PerformanceMetrics.
Section Component.

Context {N : JsNumber}.

Definition getLatencyClass (latency : number) : string :=
  if (latency <? lit 50)%js then "latency-good"
  else if (latency <? lit 150)%js then "latency-warning"
  else "latency-critical".

Definition getLatencyPercentage (latency : number) : number :=
  let percentage := Math_min (latency / lit 300 * lit 100)%js (lit 100) in
  percentage.

(** The number of the card [Processing], shown when connected:
    [1000 / Math.max(latency, 1)]. *)
Definition ticksPerSecond (latency : number) : number :=
  (lit 1000 / Math_max latency (lit 1))%js.

(** The word of the card [Performance], shown when connected. *)
Definition performance (latency : number) : string :=
  if (latency <? lit 50)%js then "Optimal"
  else if (latency <? lit 150)%js then "Good"
  else "Degraded".

End Component.
End PerformanceMetrics.

(* ===================================================================== *)
(** * The simulator behind the adapter *)
(* ===================================================================== *)

(** The options that [handleConnect] passes to the manager: the four
    callbacks are registered, and [onMessage] is [handleWebSocketMessage]
    as it was rendered, with the state [st] that it closed over.  What the
    handler does to the React state is left out here; what matters to the
    adapter is whether it throws. *)
Definition simulator_options {N : JsNumber} (Math_random : number)
  (st : TradingSimulator.state) : WebSocketManagerOptions :=
  {| onMessage := fun data processingTime =>
       snd (TradingSimulator.handleWebSocketMessage Math_random st data
              processingTime);
     onOpen := true;
     onError := true;
     onClose := true |}.

(* ===================================================================== *)
(** * The terms of the market impact *)
(* ===================================================================== *)

Section ImpactTerms.

Context {N : JsNumber}.

(** [side.reduce((sum, l) => sum + parseFloat(l[1]), 0)]. *)
Definition side_depth (side : list level) : number :=
  reduce_sum (fun l => parseFloat (snd l)) side.

(** [relativeOrderSize] of [calculateEnhancedMarketImpact]. *)
Definition relative_order_size (orderbook : OrderbookData) (quantity : number)
  : number :=
  let totalDepth :=
    (side_depth (bids orderbook) + side_depth (asks orderbook))%js in
  if (totalDepth >? lit 0)%js then (quantity / totalDepth)%js else lit 0.

(** [midPrice] of a book that has a level on both sides. *)
Definition mid_price (orderbook : OrderbookData) : number :=
  match asks orderbook, bids orderbook with
  | ask :: _, bid :: _ =>
      ((parseFloat (fst ask) + parseFloat (fst bid)) / lit 2)%js
  | _, _ => NaN
  end.

(** What [calculateEnhancedMarketImpact] returns, from [relativeOrderSize],
    [midPrice] and [volatility] on. *)
Definition impact_through_mid (relativeOrderSize midPrice volatility : number)
  : number :=
  let permanentImpact :=
    (lit 0.1 * volatility * relativeOrderSize * midPrice)%js in
  let temporaryImpact :=
    (lit 0.05 * Math_sqrt relativeOrderSize * midPrice
     * (lit 1 + volatility))%js in
  ((permanentImpact + temporaryImpact) / midPrice * lit 100)%js.

(** The two levels have the same size. *)
Definition same_size (l l' : level) : Prop :=
  parseFloat (snd l') = parseFloat (snd l).


(** The same, of the first five levels of each side only. *)
Definition same_top_sizes (ob ob' : OrderbookData) : Prop :=
  Forall2 same_size (slice_0_5 (asks ob)) (slice_0_5 (asks ob'))
  /\ Forall2 same_size (slice_0_5 (bids ob)) (slice_0_5 (bids ob')).

End ImpactTerms.

(* ===================================================================== *)
(** * 8. The specification's vocabulary, over exact arithmetic *)
(* ===================================================================== *)

Module Spec.

Import Ideal.
#[local] Existing Instance Ideal.js.

(** A number proper: neither [NaN] nor an infinity. *)
Definition finite (x : xreal) : Prop := exists r, x = Fin r.


Definition real_of (x : xreal) : R :=
  match x with
  | Fin r => r
  | _ => 0%R
  end.

(** [f] gives a non-negative number at the level [l]. *)
Definition nonneg_value (f : level -> xreal) (l : level) : Prop :=
  exists r, f l = Fin r /\ (0 <= r)%R.

(** The error kind that section 7 of the spec names for an empty side: an
    error object of a class of that name.  The source files define no error
    class and throw none explicitly. *)
Definition EmptyBookError : exception := UserError "EmptyBookError".

(** ** Valid snapshots and order parameters (data model of the spec) *)

(** A non-negative decimal. *)
Definition decimal (s : string) : Prop :=
  exists r, parseFloat s = Fin r /\ (0 <= r)%R.

Definition valid_level (l : level) : Prop :=
  decimal (fst l) /\ decimal (snd l).

Definition price (l : level) : R := real_of (parseFloat (fst l)).

Fixpoint strictly_ascending (ps : list R) : Prop :=
  match ps with
  | p :: (q :: _) as ps' => (p < q)%R /\ strictly_ascending ps'
  | _ => True
  end.

Fixpoint strictly_descending (ps : list R) : Prop :=
  match ps with
  | p :: (q :: _) as ps' => (q < p)%R /\ strictly_descending ps'
  | _ => True
  end.

Record valid_snapshot (ob : OrderbookData) : Prop := {
  asks_nonempty : asks ob <> [];
  bids_nonempty : bids ob <> [];
  asks_levels : Forall valid_level (asks ob);
  bids_levels : Forall valid_level (bids ob);
  asks_ascending : strictly_ascending (map price (asks ob));
  bids_descending : strictly_descending (map price (bids ob));
  not_crossed :
    forall a b, element0 (asks ob) = Some a -> element0 (bids ob) = Some b ->
    (price b <= price a)%R
}.

Definition valid_params (p : MetricsParams Ideal.js) : Prop :=
  (exists q, quantity p = Fin q /\ (0 < q)%R)
  /\ (exists v, volatility p = Fin v /\ (0 <= v <= 1)%R)
  /\ (orderType p = "market" \/ orderType p = "limit")%string
  /\ (feeTier p = "tier1" \/ feeTier p = "tier2" \/ feeTier p = "tier3")%string.

(** ** The formulas of section 4.2, as the spec words them *)

Definition depth (side : list level) : xreal :=
  reduce_sum (fun l => parseFloat (snd l)) side.

Definition askVol (ob : OrderbookData) : xreal := depth (firstn 5 (asks ob)).
Definition bidVol (ob : OrderbookData) : xreal := depth (firstn 5 (bids ob)).

Definition imbalance (ob : OrderbookData) : xreal :=
  ((bidVol ob - askVol ob) / (bidVol ob + askVol ob))%js.

Definition slippage_spec (ob : OrderbookData) (q : xreal) : xreal :=
  (lit 0.05 + lit 0.001 * Math_sqrt q - lit 0.1 * imbalance ob)%js.

Definition best (side : list level) : xreal :=
  match side with
  | l :: _ => parseFloat (fst l)
  | [] => NaN
  end.

Definition mid (ob : OrderbookData) : xreal :=
  ((best (asks ob) + best (bids ob)) / lit 2)%js.

Definition totalDepth (ob : OrderbookData) : xreal :=
  (depth (bids ob) + depth (asks ob))%js.

Definition is_zero (x : xreal) : bool :=
  match x with
  | Fin r => if Req_dec_T r 0 then true else false
  | _ => false
  end.

(** [relSize = quantity / totalDepth] (0 if totalDepth is 0). *)
Definition relSize (ob : OrderbookData) (q : xreal) : xreal :=
  if is_zero (totalDepth ob) then lit 0 else (q / totalDepth ob)%js.

(** The same ratio as the code guards it: [totalDepth > 0 ? q / totalDepth : 0]. *)
Definition relativeOrderSize (ob : OrderbookData) (q : xreal) : xreal :=
  if (totalDepth ob >? lit 0)%js then (q / totalDepth ob)%js else lit 0.

Definition market_impact_formula (mid relSize v : xreal) : xreal :=
  let permanent := (lit 0.1 * v * relSize * mid)%js in
  let temporary :=
    (lit 0.05 * Math_sqrt relSize * mid * (lit 1 + v))%js in
  (lit 100 * (permanent + temporary) / mid)%js.

Definition market_impact_spec (ob : OrderbookData) (q v : xreal) : xreal :=
  market_impact_formula (mid ob) (relSize ob q) v.

(** [100 * (0.1 * volatility * relSize + 0.05 * sqrt(relSize) * (1 + volatility))]. *)
Definition impact_of_relSize (relSize v : xreal) : xreal :=
  (lit 100
   * (lit 0.1 * v * relSize + lit 0.05 * Math_sqrt relSize * (lit 1 + v)))%js.

(** Every price multiplied by [c], every size kept. *)
Definition scaled_level (c : R) (l l' : level) : Prop :=
  parseFloat (snd l') = parseFloat (snd l)
  /\ exists p, parseFloat (fst l) = Fin p /\ parseFloat (fst l') = Fin (c * p).

Definition scaled_book (c : R) (ob ob' : OrderbookData) : Prop :=
  Forall2 (scaled_level c) (asks ob) (asks ob')
  /\ Forall2 (scaled_level c) (bids ob) (bids ob').

(** The fee table: [{tier1: 0.0010, tier2: 0.0008, tier3: 0.0005}], an
    unknown tier at the tier1 rate. *)
Definition fee_rate (tier : string) : Q :=
  if String.eqb tier "tier2" then 0.0008
  else if String.eqb tier "tier3" then 0.0005
  else 0.001.

End Spec.

(** Two bundles agree on every field but [internalLatency]. *)
Definition same_estimates {N : JsNumber} (r1 r2 : SimulationResults N) : Prop :=
  slippage r1 = slippage r2 /\ fees r1 = fees r2
  /\ marketImpact r1 = marketImpact r2 /\ netCost r1 = netCost r2
  /\ makerProportion r1 = makerProportion r2
  /\ takerProportion r1 = takerProportion r2.

(* ===================================================================== *)
(** * Sequences of calls on the manager *)
(* ===================================================================== *)

Section Calls.

Context {N : JsNumber}.
Variable new_WebSocket : string -> completion WebSocket.

(** A call that the owner of a manager makes on it. *)
Inductive call : Type :=
| connect_call (url : string)
| disconnect_call.

Definition invoke (this : WebSocketManager) (c : call)
  : WebSocketManager * list effect :=
  match c with
  | connect_call url => connect new_WebSocket this url
  | disconnect_call => disconnect this
  end.

Fixpoint invoke_all (this : WebSocketManager) (calls : list call)
  : WebSocketManager * list effect :=
  match calls with
  | [] => (this, [])
  | c :: calls' =>
      let '(this1, out1) := invoke this c in
      let '(this2, out2) := invoke_all this1 calls' in
      (this2, out1 ++ out2)
  end.

(** The sockets that the calls construct, in order. *)
Fixpoint created (calls : list call) : list WebSocket :=
  match calls with
  | [] => []
  | connect_call url :: calls' =>
      match new_WebSocket url with
      | Normal s => s :: created calls'
      | Throw _ => created calls'
      end
  | disconnect_call :: calls' => created calls'
  end.

(** The sockets on which [close()] is called, in order. *)
Definition closed (out : list effect) : list WebSocket :=
  flat_map (fun e => match e with socket_close s => [s] | _ => [] end) out.

(** The socket that the manager holds, if any. *)
Definition held (this : WebSocketManager) : list WebSocket :=
  match socket this with
  | Some s => [s]
  | None => []
  end.

End Calls.

(* ===================================================================== *)
(** * Measures of a book, over exact arithmetic *)
(* ===================================================================== *)

Module Measures.

Import Ideal.
#[local] Existing Instance Ideal.js.



(** The bar [r1] is at a price no higher than that of [r2]. *)
Definition price_le (r1 r2 : @OrderbookVisualizer.row Ideal.js) : Prop :=
  (Spec.real_of (OrderbookVisualizer.price r1)
   <= Spec.real_of (OrderbookVisualizer.price r2))%R.

(** The price of the bar is a number. *)
Definition priced (r : @OrderbookVisualizer.row Ideal.js) : Prop :=
  Spec.finite (OrderbookVisualizer.price r).

End Measures.

(** The platform's constructor when it accepts every address: the new
    socket is connecting. *)
Definition connecting_socket (url : string) : completion WebSocket :=
  Normal {| url := url; readyState := CONNECTING |}.

(** A constructor that rejects every address. *)
Definition rejecting_constructor (url : string) : completion WebSocket :=
  Throw SyntaxError.

(* ===================================================================== *)
(** * 9. Concrete inputs *)
(* ===================================================================== *)

Definition book (asks bids : list level) : OrderbookData := {|
  timestamp := "2025-05-04T10:39:13Z";
  exchange := "OKX";
  symbol := "BTC-USDT-SWAP";
  asks := asks;
  bids := bids
|}.

(** One level a side, nothing resting on either. *)
Definition zero_volume_book : OrderbookData :=
  book [("100", "0")]%string [("99", "0")]%string.

Definition small_book : OrderbookData :=
  book [("101", "2"); ("102", "1")]%string [("99", "3"); ("98.5", "4")]%string.

(** [small_book] with every price multiplied by 3. *)
Definition tripled_book : OrderbookData :=
  book [("303", "2"); ("306", "1")]%string [("297", "3"); ("295.5", "4")]%string.

(** Two asks of size 1e308: each size is a decimal, and their sum is above
    the largest double. *)
Definition overflowing_book : OrderbookData :=
  book [("100", "1e308"); ("101", "1e308")]%string [("99", "1")]%string.

(** One level a side, at price 0 and of size 0. *)
Definition zero_price_book : OrderbookData :=
  book [("0", "0")]%string [("0", "0")]%string.

(** The best ask and the best bid are 1e308 each: their sum is above the
    largest double, their mean is not. *)
Definition huge_price_book : OrderbookData :=
  book [("1e308", "1")]%string [("1e308", "1")]%string.

Definition no_asks_book : OrderbookData := book [] [("99", "3")]%string.
Definition no_bids_book : OrderbookData := book [("101", "2")]%string [].

(** The simulator's default order, on a given book. *)
Definition default_order {N : JsNumber} (ob : OrderbookData) : MetricsParams N :=
  Build_MetricsParams ob (lit 100) "market" (lit 0.5) "tier1" "OKX".

(** The default order, four times the size. *)
Definition large_order {N : JsNumber} (ob : OrderbookData) : MetricsParams N :=
  Build_MetricsParams ob (lit 400) "market" (lit 0.5) "tier1" "OKX".


(** A market order in a volatile market. *)
Definition volatile_order {N : JsNumber} (ob : OrderbookData) : MetricsParams N :=
  Build_MetricsParams ob (lit 100) "market" (lit 0.9) "tier2" "OKX".

(** A manager whose socket is open and whose four callbacks are all
    registered; [onMessage] returns normally. *)
Definition open_manager {N : JsNumber} : WebSocketManager :=
  {| socket :=
       Some {| url := "wss://ws.gomarket-cpp.goquant.io/ws/l2-orderbook/okx/BTC-USDT-SWAP";
               readyState := OPEN |};
     options :=
       {| onMessage := fun _ _ => Normal tt;
          onOpen := true; onError := true; onClose := true |} |}.

(** The text of a message that carries [small_book]. *)
Definition small_book_message : string :=
  "{'timestamp':'2025-05-04T10:39:13Z','exchange':'OKX','symbol':'BTC-USDT-SWAP','asks':[['101','2'],['102','1']],'bids':[['99','3'],['98.5','4']]}".

(** [JSON.parse] on the two messages of the examples below: the text of
    [small_book_message], with double quotes where it has single ones, parses
    to [small_book]; [not json] is no JSON text and throws. Every other text
    is left out of this table and counted as malformed. *)
Definition parse_table (text : string) : completion OrderbookData :=
  if String.eqb text small_book_message then Normal small_book
  else Throw SyntaxError.

(* ===================================================================== *)
(** * 10. Facts that hold at every instance *)
(* ===================================================================== *)

(** Runs the call of a goal [exists r, call = Normal r /\ _] in the virtual
    machine and gives the bundle it returns as the witness. *)
Ltac run_call :=
  match goal with
  | |- exists r, ?call = Normal r /\ _ =>
      let v := eval vm_compute in call in
      match v with
      | Normal ?r => exists r; split; [reflexivity |]
      end
  end.

Ltac by_evaluation := repeat split; reflexivity.

Section Generic.
Context {N : JsNumber}.

Lemma nonempty_cons {A : Type} (l : list A) :
  l <> [] -> exists x l', l = x :: l'.
Proof. destruct l as [| x l']; [contradiction | intros _; eauto]. Qed.

Lemma calculateEnhancedMarketImpact_Normal ob (q v : number) :
  asks ob <> [] -> bids ob <> [] ->
  exists mi, calculateEnhancedMarketImpact ob q v = Normal mi.
Proof.
  intros Ha Hb.
  destruct (nonempty_cons Ha) as (la & las & Ea).
  destruct (nonempty_cons Hb) as (lb & lbs & Eb).
  unfold calculateEnhancedMarketImpact. rewrite Ea, Eb.
  eexists; reflexivity.
Qed.

Lemma estimateImprovedMakerTakerProportion_Normal ob (q : number) ot (v : number) :
  asks ob <> [] -> bids ob <> [] ->
  exists m t,
    estimateImprovedMakerTakerProportion ob q ot v = Normal (m, t).
Proof.
  intros Ha Hb.
  destruct (nonempty_cons Ha) as (la & las & Ea).
  destruct (nonempty_cons Hb) as (lb & lbs & Eb).
  unfold estimateImprovedMakerTakerProportion. rewrite Ea, Eb.
  eexists; eexists; reflexivity.
Qed.

(** On a book with both sides populated the call returns, and each field of
    the bundle is what the sub-calculation of that name returns. *)
Lemma calculateMetrics_Normal (Math_random : number) (p : MetricsParams N) :
  asks (orderbook p) <> [] -> bids (orderbook p) <> [] ->
  exists r,
    calculateMetrics Math_random p = Normal r
    /\ slippage r = calculateSlippage (orderbook p) (quantity p)
    /\ fees r = calculateFees (quantity p) (feeTier p)
    /\ calculateEnhancedMarketImpact (orderbook p) (quantity p) (volatility p)
       = Normal (marketImpact r)
    /\ estimateImprovedMakerTakerProportion (orderbook p) (quantity p)
         (orderType p) (volatility p)
       = Normal (makerProportion r, takerProportion r)
    /\ netCost r
       = (quantity p * slippage r / lit 100 + fees r
          + quantity p * marketImpact r / lit 100)%js
    /\ internalLatency r = (Math_random * lit 30 + lit 10)%js.
Proof.
  destruct p as [ob q ot v ft ex]; cbn [orderbook quantity volatility orderType feeTier].
  intros Ha Hb.
  destruct (calculateEnhancedMarketImpact_Normal ob q v Ha Hb) as (mi & Emi).
  destruct (estimateImprovedMakerTakerProportion_Normal ob q ot v Ha Hb)
    as (m & t & Emt).
  destruct (nonempty_cons Ha) as (la & las & Ea).
  destruct (nonempty_cons Hb) as (lb & lbs & Eb).
  unfold calculateMetrics. rewrite Emi, Emt, Ea, Eb.
  cbn [bind price_of element0].
  eexists; repeat split; reflexivity.
Qed.

(** C1, as amended. When the asks or the bids of the snapshot are empty,
    [calculateMetrics] throws before it computes anything: reading
    [asks[0][0]] or [bids[0][0]] raises the runtime's [TypeError], so no
    bundle is returned, neither a partial one nor one with zeros in it.
    This holds for every order and whatever [Math.random()] would have
    returned. *)
Theorem calculateMetrics_empty_book
  (Math_random : number) (p : MetricsParams N) :
  asks (orderbook p) = [] \/ bids (orderbook p) = [] ->
  calculateMetrics Math_random p = Throw TypeError.
Proof.
  destruct p as [ob q ot v ft ex]; cbn [orderbook].
  unfold calculateMetrics.
  intros [H | H]; rewrite H.
  - reflexivity.
  - destruct (asks ob); reflexivity.
Qed.

(** C3. Two calls of [calculateMetrics] on the same parameters, whatever the
    two draws of [Math.random()], either both throw the same exception or
    both return, and then the two bundles have the same slippage, fees,
    marketImpact, netCost, makerProportion and takerProportion. *)
Theorem calculateMetrics_deterministic
  (random1 random2 : number) (p : MetricsParams N) :
  match calculateMetrics random1 p, calculateMetrics random2 p with
  | Normal r1, Normal r2 => same_estimates r1 r2
  | Throw e1, Throw e2 => e1 = e2
  | _, _ => False
  end.
Proof.
  destruct p as [ob q ot v ft ex].
  unfold calculateMetrics.
  destruct (price_of (element0 (asks ob))) as [a | e];
    cbn [bind]; [| reflexivity].
  destruct (price_of (element0 (bids ob))) as [b | e];
    cbn [bind]; [| reflexivity].
  destruct (calculateEnhancedMarketImpact ob q v) as [mi | e];
    cbn [bind]; [| reflexivity].
  destruct (estimateImprovedMakerTakerProportion ob q ot v) as [[m t] | e];
    cbn [bind]; [| reflexivity].
  repeat split.
Qed.

(** The bundle that the simulator stores does not depend on the processing
    time that the adapter measured. *)
Lemma handleWebSocketMessage_results (Math_random : number)
  (st : TradingSimulator.state) (data : OrderbookData) (t1 t2 : number) :
  TradingSimulator.results
    (fst (TradingSimulator.handleWebSocketMessage Math_random st data t1))
  = TradingSimulator.results
      (fst (TradingSimulator.handleWebSocketMessage Math_random st data t2)).
Proof.
  unfold TradingSimulator.handleWebSocketMessage.
  destruct (calculateMetrics _ _); reflexivity.
Qed.

(** Fees follow the table on the three tiers and on every name that is not
    a property of [Object.prototype]. *)
Lemma calculateFees_table (quantity : number) (feeTier : string) :
  ToBoolean (lit 0.001) = true -> ToBoolean (lit 0.0008) = true ->
  ToBoolean (lit 0.0005) = true ->
  existsb (String.eqb feeTier) Object_prototype = false ->
  calculateFees quantity feeTier = (quantity * lit (Spec.fee_rate feeTier))%js.
Proof.
  intros T1 T2 T3 Hproto.
  unfold calculateFees, Spec.fee_rate, Get. cbn [own_property].
  rewrite Hproto.
  rewrite (String.eqb_sym "tier1" feeTier), (String.eqb_sym "tier2" feeTier),
    (String.eqb_sym "tier3" feeTier).
  destruct (String.eqb feeTier "tier1") eqn:E1.
  - apply String.eqb_eq in E1; subst feeTier. cbn. rewrite T1. reflexivity.
  - destruct (String.eqb feeTier "tier2") eqn:E2.
    + cbn. rewrite T2. reflexivity.
    + destruct (String.eqb feeTier "tier3") eqn:E3.
      * cbn. rewrite T3. reflexivity.
      * cbn. reflexivity.
Qed.

(** ** The market impact and the prices *)

Lemma fold_same_size (side side' : list level) :
  Forall2 same_size side side' ->
  forall acc : number,
    fold_left (fun sum l => (sum + parseFloat (snd l))%js) side' acc
    = fold_left (fun sum l => (sum + parseFloat (snd l))%js) side acc.
Proof.
  induction 1 as [| l l' side side' Hl _ IH]; intros acc; cbn [fold_left].
  - reflexivity.
  - rewrite Hl. apply IH.
Qed.



Lemma calculateEnhancedMarketImpact_through_mid
  (ob : OrderbookData) (q v : number) :
  asks ob <> [] -> bids ob <> [] ->
  calculateEnhancedMarketImpact ob q v
  = Normal (impact_through_mid (relative_order_size ob q) (mid_price ob) v).
Proof.
  intros Ha Hb.
  destruct (nonempty_cons Ha) as (la & las & Ea).
  destruct (nonempty_cons Hb) as (lb & lbs & Eb).
  unfold calculateEnhancedMarketImpact, impact_through_mid,
    relative_order_size, mid_price, side_depth.
  rewrite Ea, Eb. reflexivity.
Qed.



End Generic.

(** C1, as stated, fails on the name of the signal: on a book without asks
    the exception is the [TypeError] of the property access, not an
    [EmptyBookError]. *)
Lemma empty_book_signal_is_TypeError :
  calculateMetrics (N:=Double.js) (lit 0.5) (default_order no_asks_book)
  = Throw TypeError
  /\ calculateMetrics (N:=Double.js) (lit 0.5) (default_order no_asks_book)
     <> Throw Spec.EmptyBookError.
Proof.
  split; [reflexivity |].
  intros H.
  change (@Throw (SimulationResults Double.js) TypeError
          = Throw Spec.EmptyBookError) in H.
  discriminate H.
Qed.

Lemma calculateMetrics_empty_book_witness :
  calculateMetrics (N:=Double.js) (lit 0.5) (default_order no_asks_book)
  = Throw TypeError
  /\ calculateMetrics (N:=Double.js) (lit 0.5) (default_order no_bids_book)
     = Throw TypeError.
Proof.
  split; apply calculateMetrics_empty_book; [left | right]; reflexivity.
Defined.


(* ===================================================================== *)
(** * 11. Laws of the calculator over exact arithmetic *)
(* ===================================================================== *)

Module IdealLaws.
Import Ideal Spec.
#[local] Existing Instance Ideal.js.
Local Open Scope R_scope.

Implicit Types x y z : @number Ideal.js.

Lemma Rsign_pos r : 0 < r -> Rsign r = Gt.
Proof. intros H; unfold Rsign; destruct (Rlt_dec 0 r); [reflexivity | lra]. Qed.

Lemma Rsign_neg r : r < 0 -> Rsign r = Lt.
Proof.
  intros H; unfold Rsign; destruct (Rlt_dec 0 r); [lra |].
  destruct (Rlt_dec r 0); [reflexivity | lra].
Qed.

Lemma Rsign_zero : Rsign 0 = Eq.
Proof.
  unfold Rsign; destruct (Rlt_dec 0 0); [lra |].
  destruct (Rlt_dec 0 0); [lra | reflexivity].
Qed.

Lemma Rsign_cases r :
  (0 < r /\ Rsign r = Gt) \/ (r < 0 /\ Rsign r = Lt) \/ (r = 0 /\ Rsign r = Eq).
Proof.
  destruct (Rtotal_order 0 r) as [H | [H | H]].
  - left; split; [lra | apply Rsign_pos; lra].
  - subst r. right; right; split; [reflexivity | apply Rsign_zero].
  - right; left; split; [lra | apply Rsign_neg; lra].
Qed.

Lemma gt_Fin a b : (Fin a >? Fin b)%js = true <-> b < a.
Proof. cbn; destruct (Rlt_dec b a); split; intros; (lra || congruence || reflexivity). Qed.

Lemma gt_Fin_false a b : (Fin a >? Fin b)%js = false <-> a <= b.
Proof. cbn; destruct (Rlt_dec b a); split; intros; (lra || congruence || reflexivity). Qed.

Lemma min_Fin a b : Math_min (Fin a) (Fin b) = Fin (Rmin a b).
Proof.
  cbn. unfold Rmin. destruct (Rlt_dec b a), (Rle_dec a b); try lra; reflexivity.
Qed.

Lemma max_Fin a b : Math_max (Fin a) (Fin b) = Fin (Rmax a b).
Proof.
  cbn. unfold Rmax. destruct (Rlt_dec a b), (Rle_dec a b); try lra; try reflexivity.
  f_equal; lra.
Qed.

Lemma div_Fin a b : b <> 0 -> (Fin a / Fin b)%js = Fin (a / b).
Proof. intros H; cbn; destruct (Req_dec_T b 0); [contradiction | reflexivity]. Qed.

Lemma lit_Fin q : lit q = Fin (Q2R q).
Proof. reflexivity. Qed.



Lemma fold_sum_nonneg (f : level -> xreal) ls :
  Forall (nonneg_value f) ls ->
  forall acc, 0 <= acc ->
  exists r, fold_left (fun sum (l : level) => (sum + f l)%js) ls (Fin acc) = Fin r /\ 0 <= r.
Proof.
  induction 1 as [| l ls [r [Hr Hr0]] _ IH]; intros acc Hacc; simpl.
  - exists acc; split; [reflexivity | assumption].
  - rewrite Hr. cbn. apply IH. lra.
Qed.

Lemma reduce_sum_nonneg (f : level -> xreal) ls :
  Forall (nonneg_value f) ls ->
  exists r, reduce_sum f ls = Fin r /\ 0 <= r.
Proof.
  intros H. unfold reduce_sum. rewrite lit_Fin.
  apply fold_sum_nonneg; [assumption | lra].
Qed.

Lemma depth_nonneg ls :
  Forall valid_level ls -> exists r, depth ls = Fin r /\ 0 <= r.
Proof.
  intros H. apply reduce_sum_nonneg.
  eapply Forall_impl; [| exact H].
  intros l [_ Hs]. exact Hs.
Qed.

Lemma best_nonneg ls :
  ls <> [] -> Forall valid_level ls ->
  exists l ls' r, ls = l :: ls' /\ parseFloat (fst l) = Fin r /\ 0 <= r.
Proof.
  intros Hne H. destruct H as [| l ls' [[r [Hr Hr0]] _] _]; [contradiction |].
  exists l, ls', r. auto.
Qed.

Lemma clamp_unit x :
  finite x ->
  exists t, Math_min (lit 1.0) (Math_max (lit 0) x) = Fin t /\ 0 <= t <= 1.
Proof.
  intros [r ->]. rewrite !lit_Fin, max_Fin, min_Fin.
  eexists; split; [reflexivity |].
  unfold Rmin, Rmax.
  destruct (Rle_dec (Q2R 0) r), (Rle_dec (Q2R 1.0) _); lra.
Qed.

Lemma boost_unit v t :
  0 <= t <= 1 ->
  exists t',
    (if (v >? lit 0.8)%js then Math_min (lit 1.0) (Fin t + lit 0.15)%js else Fin t)
    = Fin t' /\ 0 <= t' <= 1.
Proof.
  intros Ht. destruct (gt _ _).
  - rewrite !lit_Fin. cbn [add js xadd]. rewrite min_Fin.
    eexists; split; [reflexivity |].
    unfold Rmin. destruct (Rle_dec _ _); lra.
  - exists t; auto.
Qed.

Lemma finite_Fin r : finite (Fin r).
Proof. exists r; reflexivity. Qed.

Lemma finite_lit q : finite (lit q).
Proof. exists (Q2R q); reflexivity. Qed.

Lemma finite_neg x : finite x -> finite (- x)%js.
Proof. intros [a ->]; eexists; reflexivity. Qed.

Lemma finite_add x y : finite x -> finite y -> finite (x + y)%js.
Proof. intros [a ->] [b ->]; eexists; reflexivity. Qed.

Lemma finite_sub x y : finite x -> finite y -> finite (x - y)%js.
Proof. intros [a ->] [b ->]; eexists; reflexivity. Qed.

Lemma finite_mul x y : finite x -> finite y -> finite (x * y)%js.
Proof. intros [a ->] [b ->]; eexists; reflexivity. Qed.

Lemma finite_min x y : finite x -> finite y -> finite (Math_min x y).
Proof. intros [a ->] [b ->]; rewrite min_Fin; eexists; reflexivity. Qed.

Lemma finite_max x y : finite x -> finite y -> finite (Math_max x y).
Proof. intros [a ->] [b ->]; rewrite max_Fin; eexists; reflexivity. Qed.

(** [n / d] behind the guard [d > 0]. *)
Lemma finite_guarded_div x y z :
  finite x -> finite y -> finite z ->
  finite (if (y >? lit 0)%js then (x / y)%js else z).
Proof.
  intros [a ->] [b ->] Hz.
  destruct (gt _ _) eqn:Hgt; [| assumption].
  rewrite lit_Fin in Hgt. apply gt_Fin in Hgt.
  rewrite div_Fin by lra. apply finite_Fin.
Qed.

(** [n / (d || 1)]. *)
Lemma finite_div_or_one x y :
  finite x -> finite y -> finite (x / (y || lit 1))%js.
Proof.
  intros [a ->] [b ->]. cbn [ToBoolean js xtruthy].
  destruct (Req_dec_T b 0).
  - rewrite lit_Fin, div_Fin by lra. apply finite_Fin.
  - rewrite div_Fin by assumption. apply finite_Fin.
Qed.


Lemma finite_half x : finite x -> finite (x / lit 2)%js.
Proof.
  intros [a ->]. rewrite lit_Fin, div_Fin by lra. apply finite_Fin.
Qed.

Ltac fin :=
  repeat first
    [ apply finite_Fin | apply finite_lit | apply finite_add
    | apply finite_sub | apply finite_mul | apply finite_neg
    | apply finite_min | apply finite_max | apply finite_half
    | apply finite_guarded_div | apply finite_div_or_one ].

Lemma maker_taker_split ob q ot v :
  valid_snapshot ob ->
  exists m t,
    estimateImprovedMakerTakerProportion ob (Fin q) ot (Fin v)
    = Normal (Fin m, Fin t)
    /\ m + t = 100 /\ 0 <= t <= 100 /\ 0 <= m <= 100.
Proof.
  intros V.
  destruct (depth_nonneg (asks_levels V)) as (ad & Had & _).
  destruct (depth_nonneg (bids_levels V)) as (bd & Hbd & _).
  destruct (best_nonneg (asks_nonempty V) (asks_levels V))
    as (la & las & a & Ha & Hpa & _).
  destruct (best_nonneg (bids_nonempty V) (bids_levels V))
    as (lb & lbs & b & Hb & Hpb & _).
  unfold depth in Had, Hbd.
  unfold estimateImprovedMakerTakerProportion.
  cbv zeta. rewrite Had, Hbd, Ha, Hb.
  cbn [bind price_of element0]. rewrite Hpa, Hpb.
  match goal with
  | |- context [Math_max (lit 0) ?X] =>
      assert (HX : finite X)
  end.
  { destruct (String.eqb ot "market"); fin. }
  destruct (clamp_unit HX) as (t0 & -> & Ht0).
  destruct (boost_unit (Fin v) Ht0) as (t1 & -> & Ht1).
  exists (Q2R 100 - t1 * Q2R 100), (t1 * Q2R 100).
  split; [reflexivity |]. lra.
Qed.


(** ** Algebra of the extended reals *)

Ltac signs :=
  repeat match goal with
  | |- context [Rsign ?e] =>
      first
        [ rewrite (@Rsign_pos e) by nra
        | rewrite (@Rsign_neg e) by nra
        | replace e with 0 by nra; rewrite Rsign_zero ]
  end.

Ltac decide_order :=
  repeat match goal with
  | |- context [Rlt_dec ?a ?b] => destruct (Rlt_dec a b); try lra
  | |- context [Req_dec_T ?a ?b] => destruct (Req_dec_T a b); try lra
  end.

(** Evaluates the operations as far as the known signs and orders allow. *)
Ltac evaluate :=
  cbn;
  repeat first [progress signs | progress decide_order | progress cbn];
  try reflexivity;
  try (f_equal; lra);
  try (f_equal; field; first [assumption | lra]).

(** [evaluate] after a case analysis on the sign of one real in scope. *)
Ltac by_sign :=
  match goal with
  | a : R |- _ =>
      destruct (Rsign_cases a) as [[? ?] | [[? ?] | [? ?]]];
      subst; solve [evaluate]
  end.

Ltac xreal_cases := evaluate; try by_sign.

Lemma mul_comm x y : (x * y)%js = (y * x)%js.
Proof. destruct x as [a | | |], y as [b | | |]; xreal_cases. Qed.

Lemma neg_mul x y : (- x * y)%js = (- (x * y))%js.
Proof. destruct x as [a | | |], y as [b | | |]; xreal_cases. Qed.

Lemma mul_pos_swap m x y : 0 < m -> (x * Fin m * y)%js = (x * y * Fin m)%js.
Proof. intros Hm. destruct x as [a | | |], y as [b | | |]; xreal_cases. Qed.

Lemma scale_cancel m x y :
  0 < m -> ((x * Fin m + y * Fin m) / Fin m)%js = (x + y)%js.
Proof. intros Hm. destruct x as [a | | |], y as [b | | |]; xreal_cases. Qed.

Lemma div_mul_hundred x y : (x / y * lit 100)%js = (lit 100 * x / y)%js.
Proof. destruct x as [a | | |], y as [b | | |]; xreal_cases. Qed.


(** ** Slippage *)

Lemma calculateSlippage_formula ob q :
  calculateSlippage ob q = slippage_spec ob q.
Proof.
  unfold calculateSlippage, slippage_spec. cbv zeta.
  rewrite neg_mul. reflexivity.
Qed.





(** ** Market impact *)

Lemma totalDepth_nonneg ob :
  valid_snapshot ob -> exists d, totalDepth ob = Fin d /\ 0 <= d.
Proof.
  intros V.
  destruct (depth_nonneg (asks_levels V)) as (ad & Had & Had0).
  destruct (depth_nonneg (bids_levels V)) as (bd & Hbd & Hbd0).
  exists (bd + ad). unfold totalDepth. rewrite Had, Hbd.
  split; [reflexivity | lra].
Qed.

(** On a valid snapshot the guard [totalDepth > 0] of the code and the
    case [totalDepth is 0] of the spec select the same value. *)
Lemma relativeOrderSize_relSize ob q :
  valid_snapshot ob -> relativeOrderSize ob q = relSize ob q.
Proof.
  intros V. destruct (totalDepth_nonneg V) as (d & Hd & Hd0).
  unfold relativeOrderSize, relSize. rewrite Hd. cbn.
  decide_order; reflexivity.
Qed.

Lemma calculateEnhancedMarketImpact_unfold ob q v :
  asks ob <> [] -> bids ob <> [] ->
  calculateEnhancedMarketImpact ob q v
  = Normal
      ((lit 0.1 * v * relativeOrderSize ob q * mid ob
        + lit 0.05 * Math_sqrt (relativeOrderSize ob q) * mid ob * (lit 1 + v))
       / mid ob * lit 100)%js.
Proof.
  intros Ha Hb.
  destruct (nonempty_cons Ha) as (la & las & Ea).
  destruct (nonempty_cons Hb) as (lb & lbs & Eb).
  unfold calculateEnhancedMarketImpact, relativeOrderSize, mid, totalDepth,
    depth, best.
  rewrite Ea, Eb. reflexivity.
Qed.

Lemma calculateEnhancedMarketImpact_formula ob q v :
  valid_snapshot ob ->
  calculateEnhancedMarketImpact ob q v = Normal (market_impact_spec ob q v).
Proof.
  intros V.
  rewrite calculateEnhancedMarketImpact_unfold
    by (apply (asks_nonempty V) || apply (bids_nonempty V)).
  rewrite (relativeOrderSize_relSize q V), div_mul_hundred.
  reflexivity.
Qed.

(** With a positive mid the price cancels. *)
Lemma calculateEnhancedMarketImpact_mid_free ob q v m :
  asks ob <> [] -> bids ob <> [] -> mid ob = Fin m -> 0 < m ->
  calculateEnhancedMarketImpact ob q v
  = Normal (impact_of_relSize (relativeOrderSize ob q) v).
Proof.
  intros Ha Hb Hmid Hm.
  rewrite calculateEnhancedMarketImpact_unfold by assumption.
  rewrite Hmid.
  rewrite (mul_pos_swap _ (lit 1 + v)%js Hm), (scale_cancel _ _ Hm).
  unfold impact_of_relSize. rewrite mul_comm. reflexivity.
Qed.

(** A degenerate book: with no depth at all and a positive mid, the impact
    is 0. *)
Lemma impact_of_zero_relSize v :
  finite v -> impact_of_relSize (lit 0) v = Fin 0.
Proof.
  intros [r ->]. unfold impact_of_relSize. cbn.
  destruct (Rlt_dec (Q2R 0) 0); [lra |]. cbn.
  f_equal. replace (Q2R 0) with 0 by lra. rewrite sqrt_0. lra.
Qed.

(** ** Scaling the prices *)

Lemma scaled_depth c ls ls' :
  Forall2 (scaled_level c) ls ls' -> depth ls' = depth ls.
Proof.
  intros H. unfold depth, reduce_sum. generalize (lit 0).
  induction H as [| l l' ls ls' [Hs _] _ IH]; intros acc; simpl.
  - reflexivity.
  - rewrite Hs. apply IH.
Qed.

Lemma scaled_best c ls ls' :
  Forall2 (scaled_level c) ls ls' -> ls <> [] ->
  ls' <> [] /\ exists p, best ls = Fin p /\ best ls' = Fin (c * p).
Proof.
  intros [| l l' ls0 ls0' [_ (p & Hp & Hp')] _] Hne; [contradiction |].
  split; [discriminate |]. exists p. auto.
Qed.

Lemma scaled_mid c ob ob' m :
  scaled_book c ob ob' -> asks ob <> [] -> bids ob <> [] ->
  mid ob = Fin m ->
  asks ob' <> [] /\ bids ob' <> [] /\ mid ob' = Fin (c * m)
  /\ totalDepth ob' = totalDepth ob.
Proof.
  intros [Sa Sb] Ha Hb Hm.
  destruct (scaled_best Sa Ha) as (Ha' & a & Ea & Ea').
  destruct (scaled_best Sb Hb) as (Hb' & b & Eb & Eb').
  repeat split; try assumption.
  - unfold mid in *. rewrite Ea, Eb in Hm. rewrite Ea', Eb'.
    rewrite lit_Fin in *. cbn [add js xadd] in *.
    rewrite div_Fin in * by lra. injection Hm as <-. f_equal. lra.
  - unfold totalDepth. rewrite (scaled_depth Sa), (scaled_depth Sb).
    reflexivity.
Qed.

End IdealLaws.

(* ===================================================================== *)
(** * 12. The calculator on valid snapshots *)
(* ===================================================================== *)

Section ExactArithmetic.

Import Ideal Spec IdealLaws.
#[local] Existing Instance Ideal.js.
Local Open Scope R_scope.

(** ** The concrete books are valid *)

(** Reads the decimal strings of a concrete book. *)
Ltac read_strings :=
  unfold price, parseFloat;
  repeat match goal with
  | |- context [StrDecimalLiteral (TrimStart ?s)] =>
      let v := eval vm_compute in (StrDecimalLiteral (TrimStart s)) in
      change (StrDecimalLiteral (TrimStart s)) with v
  end;
  cbn [real_of lit js fst snd].

Ltac decimal_string := eexists; split; [read_strings; reflexivity | lra].

Ltac valid_book :=
  constructor; cbn [book asks bids];
  [ discriminate
  | discriminate
  | repeat constructor; decimal_string
  | repeat constructor; decimal_string
  | cbn [map strictly_ascending fst]; read_strings; repeat split; lra
  | cbn [map strictly_descending fst]; read_strings; repeat split; lra
  | cbn [element0]; intros a b Ha Hb; injection Ha as <-; injection Hb as <-;
    cbn [fst]; read_strings; lra ].

Lemma small_book_valid : valid_snapshot small_book.
Proof. unfold small_book. valid_book. Qed.

Lemma zero_volume_book_valid : valid_snapshot zero_volume_book.
Proof. unfold zero_volume_book. valid_book. Qed.

Lemma mockOrderbookData_valid : valid_snapshot mockOrderbookData.
Proof. unfold mockOrderbookData. valid_book. Qed.

Ltac valid_order :=
  unfold valid_params; cbn;
  repeat split; try (eexists; split; [reflexivity | lra]); auto.

Lemma default_order_valid ob : valid_params (default_order ob).
Proof. valid_order. Qed.

Lemma large_order_valid ob : valid_params (large_order ob).
Proof. valid_order. Qed.

Lemma volatile_order_valid ob : valid_params (volatile_order ob).
Proof. valid_order. Qed.


Lemma overflowing_book_valid : valid_snapshot overflowing_book.
Proof. unfold overflowing_book. valid_book. Qed.

Lemma zero_price_book_valid : valid_snapshot zero_price_book.
Proof. unfold zero_price_book. valid_book. Qed.

Lemma huge_price_book_valid : valid_snapshot huge_price_book.
Proof. unfold huge_price_book. valid_book. Qed.


Lemma zero_volume_book_totalDepth : totalDepth zero_volume_book = Fin 0.
Proof.
  unfold totalDepth, depth, reduce_sum, zero_volume_book.
  cbn [book bids asks fold_left snd].
  read_strings. cbn. f_equal. lra.
Qed.

Lemma zero_volume_book_mid : mid zero_volume_book = Fin (199 / 2).
Proof.
  unfold mid, best, zero_volume_book. cbn [book bids asks].
  read_strings. cbn [add js xadd]. rewrite div_Fin by lra. f_equal. lra.
Qed.

Lemma zero_price_book_totalDepth : totalDepth zero_price_book = Fin 0.
Proof.
  unfold totalDepth, depth, reduce_sum, zero_price_book.
  cbn [book bids asks fold_left snd].
  read_strings. cbn. f_equal. lra.
Qed.

(** With nothing resting on the top levels the imbalance is [0 / 0]. *)
Lemma zero_volume_book_slippage q :
  calculateSlippage zero_volume_book q = NaN.
Proof.
  rewrite calculateSlippage_formula.
  unfold slippage_spec, imbalance, bidVol, askVol, depth, reduce_sum,
    zero_volume_book.
  cbn [book bids asks firstn fold_left snd]. read_strings.
  destruct q; evaluate.
Qed.

(** ** Slippage *)



(** ** The unguarded division of the slippage *)

(** C4. [zero_volume_book] is a valid snapshot (one level a side, best ask
    100 above best bid 99, sizes 0) and the default order is valid, yet the
    bundle has [NaN] in [slippage] and in [netCost]: the imbalance
    [(bidVolume - askVolume) / (bidVolume + askVolume)] is [0 / 0], and
    [calculateSlippage] has no fallback for it.  In binary64 the other four
    estimates are the numbers shown; in exact arithmetic the same two fields
    are [NaN]. *)
Theorem slippage_is_NaN_on_zero_volume :
  valid_snapshot zero_volume_book
  /\ valid_params (default_order zero_volume_book)
  /\ (exists r,
        calculateMetrics (N:=Double.js) (lit 0.5)
          (default_order zero_volume_book) = Normal r
        /\ slippage r = NaN /\ netCost r = NaN
        /\ fees r = lit 0.1 /\ marketImpact r = lit 0
        /\ makerProportion r = lit 0 /\ takerProportion r = lit 100)
  /\ (exists r,
        calculateMetrics (N:=Ideal.js) (lit 0.5)
          (default_order zero_volume_book) = Normal r
        /\ slippage r = NaN /\ netCost r = NaN).
Proof.
  split; [exact zero_volume_book_valid |].
  split; [exact (default_order_valid zero_volume_book) |].
  split.
  - run_call. by_evaluation.
  - destruct (@calculateMetrics_Normal Ideal.js (@lit Ideal.js 0.5)
                (default_order zero_volume_book)
                (asks_nonempty zero_volume_book_valid)
                (bids_nonempty zero_volume_book_valid))
      as (r & Hr & Hs & _ & _ & _ & Hnet & _).
    cbn [default_order orderbook quantity] in Hs.
    rewrite zero_volume_book_slippage in Hs.
    exists r. split; [exact Hr |]. split; [exact Hs |].
    rewrite Hnet, Hs. reflexivity.
Qed.

(** ** The split when the depth overflows *)

(** C5. [overflowing_book] is a valid snapshot (two asks of size 1e308, one
    bid) and the default order is valid.  In binary64 the ask depth
    [1e308 + 1e308] is [Infinity], the depth imbalance
    [(bidDepth - askDepth) / (bidDepth + askDepth || 1)] is
    [-Infinity / Infinity], which is [NaN], and [Math.max] and [Math.min]
    return [NaN] from the clamps.  Both proportions of the bundle are [NaN]:
    neither lies in [[0, 100]], and their sum is not 100.  The guard [|| 1]
    of the divisor replaces a zero and a [NaN], and leaves [Infinity]. *)
Theorem maker_taker_is_NaN_when_the_depth_overflows :
  valid_snapshot overflowing_book
  /\ valid_params (default_order overflowing_book)
  /\ side_depth (N:=Double.js) (asks overflowing_book) = Infinity
  /\ (exists r,
        calculateMetrics (N:=Double.js) (lit 0.5)
          (default_order overflowing_book) = Normal r
        /\ makerProportion r = NaN /\ takerProportion r = NaN
        /\ (makerProportion r + takerProportion r)%js = NaN
        /\ (lit 100 >? takerProportion r)%js = false
        /\ (takerProportion r >? lit 0)%js = false)
  /\ (@lit Double.js 0 || lit 1)%js = lit 1
  /\ (@NaN Double.js || lit 1)%js = lit 1
  /\ (@Infinity Double.js || lit 1)%js = Infinity.
Proof.
  split; [exact overflowing_book_valid |].
  split; [exact (default_order_valid overflowing_book) |].
  split; [reflexivity |].
  split; [run_call; by_evaluation |].
  repeat split; vm_compute; reflexivity.
Qed.

(** ** The unguarded division by the mid price *)

(** C7. [zero_price_book] is a valid snapshot (one level a side, at price 0
    and of size 0) and the default order is valid.  Its total depth is 0
    and the relative order size is the number 0, as the guard
    [totalDepth > 0 ? ... : 0] has it.  The permanent and the temporary
    impact are 0, and the last line divides their sum by the mid price,
    which is 0 as well: the market impact of the bundle is [NaN], in
    binary64 and in exact arithmetic alike.  On the same book the maker and
    taker proportions are numbers: there the division by the mid price is
    guarded by [midPrice > 0 ? ... : 0]. *)
Theorem market_impact_is_NaN_when_the_best_prices_are_zero :
  valid_snapshot zero_price_book
  /\ valid_params (default_order zero_price_book)
  /\ totalDepth zero_price_book = Fin 0
  /\ relSize zero_price_book (lit 100) = Fin 0
  /\ (exists r,
        calculateMetrics (N:=Double.js) (lit 0.5)
          (default_order zero_price_book) = Normal r
        /\ relative_order_size (N:=Double.js) zero_price_book (lit 100)
           = lit 0
        /\ marketImpact r = NaN /\ netCost r = NaN
        /\ makerProportion r = lit 0 /\ takerProportion r = lit 100)
  /\ (exists r,
        calculateMetrics (N:=Ideal.js) (lit 0.5)
          (default_order zero_price_book) = Normal r
        /\ marketImpact r = NaN).
Proof.
  split; [exact zero_price_book_valid |].
  split; [exact (default_order_valid zero_price_book) |].
  split; [exact zero_price_book_totalDepth |].
  split.
  { unfold relSize. rewrite zero_price_book_totalDepth. cbn.
    destruct (Req_dec_T 0 0); [| lra]. f_equal. lra. }
  split.
  - run_call. by_evaluation.
  - destruct (@calculateMetrics_Normal Ideal.js (@lit Ideal.js 0.5)
                (default_order zero_price_book)
                (asks_nonempty zero_price_book_valid)
                (bids_nonempty zero_price_book_valid))
      as (r & Hr & _ & _ & Hmi & _).
    exists r. split; [exact Hr |].
    cbn [default_order orderbook quantity volatility] in Hmi.
    rewrite (@calculateEnhancedMarketImpact_through_mid Ideal.js
               zero_price_book (lit 100) (lit 0.5)
               (asks_nonempty zero_price_book_valid)
               (bids_nonempty zero_price_book_valid)) in Hmi.
    injection Hmi as <-.
    unfold impact_through_mid, relative_order_size, mid_price, side_depth,
      reduce_sum, zero_price_book.
    cbn [book bids asks fold_left fst snd]. read_strings.
    evaluate.
Qed.

(** ** The market impact after a change of prices, in binary64 *)


End ExactArithmetic.

(* ===================================================================== *)
(** * 13. Evaluation in binary64 *)
(* ===================================================================== *)

(** The three literals of the fee table are truthy. *)
Lemma fee_rates_truthy :
  ToBoolean (JsNumber:=Double.js) (lit 0.001) = true
  /\ ToBoolean (JsNumber:=Double.js) (lit 0.0008) = true
  /\ ToBoolean (JsNumber:=Double.js) (lit 0.0005) = true.
Proof. vm_compute. repeat split. Qed.

(** The specification's example scenario on [mockOrderbookData]:
    [quantity = 100], [volatility = 0.5], [tier1], a market order. *)
Lemma mockOrderbookData_scenario :
  exists r,
    calculateMetrics (N:=Double.js) (lit 0.25) (default_order mockOrderbookData)
    = Normal r
    /\ fees r = lit 0.1
    /\ (makerProportion r + takerProportion r)%js = lit 100
    /\ takerProportion r = lit 100.
Proof. run_call. by_evaluation. Qed.

(** C2. The simulator hands the adapter's measurement to its own [latency]
    state, not to the calculator: on the same message, with the same
    measured processing time of 1.5 ms, the bundle's [internalLatency] is
    [Math.random() * 30 + 10], here 17.5 when the draw is 0.25 and 32.5 when
    it is 0.75, and in neither case 1.5. *)
Theorem internalLatency_is_random_not_measured :
  let st := TradingSimulator.initial (N:=Double.js) in
  let processingTime := lit (JsNumber:=Double.js) 1.5 in
  let after1 :=
    fst (TradingSimulator.handleWebSocketMessage (lit 0.25) st
           mockOrderbookData processingTime) in
  let after2 :=
    fst (TradingSimulator.handleWebSocketMessage (lit 0.75) st
           mockOrderbookData processingTime) in
  TradingSimulator.latency after1 = processingTime
  /\ TradingSimulator.latency after2 = processingTime
  /\ option_map (fun r => internalLatency r) (TradingSimulator.results after1)
     = Some (lit 17.5)
  /\ option_map (fun r => internalLatency r) (TradingSimulator.results after2)
     = Some (lit 32.5).
Proof. vm_compute. repeat split. Qed.

(** C8. On the three tiers the fee is the quantity times the rate of the
    table, [fees(1000, tier1) = 1] and [fees(1000, tier3) = 0.5], and a name
    such as [tier9] falls back to the tier1 rate.  A name that
    [Object.prototype] defines does not: [feeRates["toString"]] is the
    inherited function, which is truthy, so the fallback is not taken and
    the product is [NaN]. *)
Theorem calculateFees_inherited_key :
  calculateFees (N:=Double.js) (lit 1000) "toString" = NaN
  /\ calculateFees (N:=Double.js) (lit 1000) "tier1" = lit 1
  /\ calculateFees (N:=Double.js) (lit 1000) "tier2" = lit 0.8
  /\ calculateFees (N:=Double.js) (lit 1000) "tier3" = lit 0.5
  /\ calculateFees (N:=Double.js) (lit 1000) "tier9" = lit 1.
Proof. vm_compute. repeat split. Qed.

(** In binary64, for every quantity and every tier name that
    [Object.prototype] does not define, the fee is the quantity times the
    rate of the table. *)
Lemma calculateFees_table_binary64
  (quantity : @number Double.js) (feeTier : string) :
  existsb (String.eqb feeTier) Object_prototype = false ->
  calculateFees quantity feeTier = (quantity * lit (Spec.fee_rate feeTier))%js.
Proof.
  destruct fee_rates_truthy as (T1 & T2 & T3).
  apply calculateFees_table; assumption.
Qed.

(* ===================================================================== *)
(** * 14. Decode failures in the adapter *)
(* ===================================================================== *)

Section DecodeFailure.

Context {N : JsNumber}.
Variable JSON_parse : string -> completion OrderbookData.

Lemma onmessage_decode_failure (this : WebSocketManager) (raw : string)
  (startTime endTime : number) (e : exception) :
  JSON_parse raw = Throw e ->
  onmessage JSON_parse this raw startTime endTime
  = [console_error "Error processing message:"].
Proof. intros H. unfold onmessage. rewrite H. reflexivity. Qed.

(** C9, as amended. When [JSON.parse] throws on a message, the handler
    writes one line to the console and calls no callback; the manager and
    its socket are as before, and the events that follow are handled as if
    the bad message had not come. *)
Theorem decode_failure_is_logged_and_stream_continues
  (this : WebSocketManager) (raw : string) (startTime endTime : number)
  (e : exception) (events : list socket_event) :
  JSON_parse raw = Throw e ->
  dispatch JSON_parse this (message_event raw startTime endTime)
  = (this, [console_error "Error processing message:"])
  /\ run JSON_parse this (message_event raw startTime endTime :: events)
     = (fst (run JSON_parse this events),
        console_error "Error processing message:"
        :: snd (run JSON_parse this events)).
Proof.
  intros H.
  assert (D : dispatch JSON_parse this (message_event raw startTime endTime)
              = (this, [console_error "Error processing message:"])).
  { cbn [dispatch].
    rewrite (@onmessage_decode_failure this raw startTime endTime e H).
    reflexivity. }
  split; [exact D |].
  cbn [run]. rewrite D.
  destruct (run JSON_parse this events) as [this' out]. reflexivity.
Qed.

End DecodeFailure.

(** C9, as stated, fails: the error callback is registered, the message
    does not parse, and [onError] is not among the effects of handling it. *)
Lemma decode_failure_not_reported_to_onError :
  parse_table "not json" = Throw SyntaxError
  /\ onError (options (@open_manager Double.js)) = true
  /\ ~ In onError_called
       (snd (dispatch parse_table (@open_manager Double.js)
               (message_event "not json" (lit 10) (lit 10.5)))).
Proof.
  split; [reflexivity |]. split; [reflexivity |].
  cbn. intros [H | []]. discriminate H.
Qed.

Lemma decode_failure_is_logged_and_stream_continues_witness :
  parse_table "not json" = Throw SyntaxError
  /\ run parse_table (@open_manager Double.js)
       [message_event "not json" (lit 10) (lit 10.5);
        message_event small_book_message (lit 20) (lit 20.25)]
     = (open_manager,
        [console_error "Error processing message:";
         onMessage_called small_book (lit 0.25)]).
Proof.
  split; [reflexivity |].
  destruct
    (@decode_failure_is_logged_and_stream_continues Double.js parse_table
       open_manager "not json" (lit 10) (lit 10.5) SyntaxError
       [message_event small_book_message (lit 20) (lit 20.25)] eq_refl)
    as [_ H].
  rewrite H. reflexivity.
Defined.

(* ===================================================================== *)
(** * 15. The calculator at every instance *)
(* ===================================================================== *)

Section Outcome.

Context {N : JsNumber}.

(** X1. [calculateMetrics] returns a bundle exactly when both sides of the
    book have a level, whatever the strings of the levels are; the only
    exception it ever throws is the [TypeError] of an empty side. *)
Theorem calculateMetrics_throws_only_on_an_empty_side
  (Math_random : number) (p : MetricsParams N) :
  match calculateMetrics Math_random p with
  | Normal _ => asks (orderbook p) <> [] /\ bids (orderbook p) <> []
  | Throw e =>
      e = TypeError /\ (asks (orderbook p) = [] \/ bids (orderbook p) = [])
  end.
Proof.
  destruct p as [ob q ot v ft ex]; cbn [orderbook].
  unfold calculateMetrics, calculateEnhancedMarketImpact,
    estimateImprovedMakerTakerProportion.
  destruct (asks ob) as [| la las]; [cbn; auto |].
  destruct (bids ob) as [| lb lbs]; [cbn; auto |].
  cbn. split; discriminate.
Qed.

(** X18. The slippage reads the sizes of the first five levels of each
    side and nothing else of the book: two books that agree on these sizes
    have the same slippage for the same quantity, whatever their prices
    and their deeper levels are.  Unlike the market impact, which computes
    with the mid price and so changes with it in the last digits, this holds
    exactly at every instance of the numbers. *)
Theorem slippage_reads_the_top_five_sizes
  (ob ob' : OrderbookData) (q : number) :
  same_top_sizes ob ob' -> calculateSlippage ob' q = calculateSlippage ob q.
Proof.
  intros [Ha Hb]. unfold calculateSlippage. cbv zeta.
  unfold reduce_sum.
  rewrite (fold_same_size Ha), (fold_same_size Hb). reflexivity.
Qed.

Variable JSON_parse : string -> completion OrderbookData.

(** X12. Behind the adapter, the simulator's handler is called once for
    every message that parses, with the time between the two clock
    readings.  When a side of the parsed book is empty the handler throws,
    the adapter writes that to the console, and neither the manager nor its
    socket changes; when both sides have a level nothing else happens. *)
Theorem empty_side_is_logged_by_the_adapter
  (Math_random : number) (st : TradingSimulator.state)
  (socket : option WebSocket) (raw : string) (data : OrderbookData)
  (startTime endTime : number) :
  JSON_parse raw = Normal data ->
  let this :=
    {| socket := socket; options := simulator_options Math_random st |} in
  dispatch JSON_parse this (message_event raw startTime endTime)
  = (this,
     onMessage_called data (endTime - startTime)%js
     :: match asks data, bids data with
        | _ :: _, _ :: _ => []
        | _, _ => [console_error "Error processing message:"]
        end).
Proof.
  intros Hparse. cbn. unfold onmessage. rewrite Hparse.
  cbn [options simulator_options onMessage].
  unfold TradingSimulator.handleWebSocketMessage, calculateMetrics,
    calculateEnhancedMarketImpact, estimateImprovedMakerTakerProportion.
  destruct (asks data) as [| la las]; [reflexivity |].
  destruct (bids data) as [| lb lbs]; reflexivity.
Qed.

End Outcome.

Lemma empty_side_is_logged_by_the_adapter_witness :
  let this :=
    {| socket := None;
       options :=
         simulator_options (N:=Double.js) (lit 0.25) TradingSimulator.initial |} in
  dispatch parse_table this
    (message_event small_book_message (lit 20) (lit 20.25))
  = (this, [onMessage_called small_book (lit 20.25 - lit 20)%js]).
Proof.
  exact (@empty_side_is_logged_by_the_adapter Double.js parse_table
           (lit 0.25) TradingSimulator.initial None small_book_message
           small_book (lit 20) (lit 20.25) eq_refl).
Defined.

Lemma slippage_reads_the_top_five_sizes_witness :
  calculateSlippage (N:=Double.js) tripled_book (lit 100)
  = calculateSlippage small_book (lit 100).
Proof.
  apply (@slippage_reads_the_top_five_sizes Double.js small_book tripled_book).
  split; repeat constructor.
Defined.

(* ===================================================================== *)
(** * 16. The life of a connection *)
(* ===================================================================== *)

Section AdapterCalls.

Context {N : JsNumber}.
Variable new_WebSocket : string -> completion WebSocket.

(** X7. After [disconnect] the manager holds no socket and is not
    connected; [close()] was called on the socket it held, if any, and on
    nothing else; a second [disconnect] does nothing. *)
Theorem disconnect_twice (this : WebSocketManager) :
  let this1 := fst (disconnect this) in
  socket this1 = None
  /\ options this1 = options this
  /\ isConnected this1 = false
  /\ closed (snd (disconnect this)) = held this
  /\ disconnect this1 = (this1, []).
Proof.
  unfold disconnect, isConnected, held, closed.
  destruct this as [[s |] opts]; cbn; repeat split.
Qed.

(** X9. When the constructor throws, [connect] still calls [close()] on
    the socket that the manager held, writes to the console, and calls
    [onError] exactly when it is registered; no other callback is called and
    the manager is not connected afterwards. *)
Theorem connect_failure (this : WebSocketManager) (url : string) (e : exception) :
  new_WebSocket url = Throw e ->
  let '(this1, out) := connect new_WebSocket this url in
  isConnected this1 = false
  /\ options this1 = options this
  /\ closed out = held this
  /\ In (console_error "WebSocket connection error:") out
  /\ (In onError_called out <-> onError (options this) = true)
  /\ ~ In onOpen_called out /\ ~ In onClose_called out
  /\ (forall data t, ~ In (onMessage_called data t) out).
Proof.
  intros Hnew. unfold connect. rewrite Hnew.
  destruct this as [[[u r] |] [f o1 o2 o3]]; cbn; unfold isConnected, held, closed, when; cbn.
  - destruct r, o2; cbn; repeat split; intros;
      try tauto; try intuition discriminate.
  - destruct o2; cbn; repeat split; intros;
      try tauto; try intuition discriminate.
Qed.

Lemma invoke_all_accounting (calls : list call) :
  (forall url, In (connect_call url) calls ->
     exists s, new_WebSocket url = Normal s) ->
  forall this,
    closed (snd (invoke_all new_WebSocket this calls))
    ++ held (fst (invoke_all new_WebSocket this calls))
    = held this ++ created new_WebSocket calls.
Proof.
  induction calls as [| c calls IH]; intros Hok this.
  - cbn. rewrite app_nil_r. reflexivity.
  - assert (Hok' : forall url, In (connect_call url) calls ->
                      exists s, new_WebSocket url = Normal s)
      by (intros u Hu; apply Hok; right; exact Hu).
    specialize (IH Hok').
    cbn [invoke_all created].
    destruct (invoke new_WebSocket this c) as [this1 out1] eqn:E1.
    specialize (IH this1).
    destruct (invoke_all new_WebSocket this1 calls) as [this2 out2].
    cbn [fst snd] in *.
    unfold closed in *. rewrite flat_map_app, <- app_assoc, IH.
    destruct c as [url |]; cbn [invoke] in E1.
    + destruct (Hok url (or_introl eq_refl)) as [s Hs].
      unfold connect in E1. rewrite Hs in E1. injection E1 as <- <-.
      rewrite Hs. destruct this as [[old |] opts]; reflexivity.
    + unfold disconnect in E1.
      destruct this as [[old |] opts]; injection E1 as <- <-; reflexivity.
Qed.

(** X10. As long as the constructor succeeds, after any sequence of
    [connect] and [disconnect] calls on a new manager, the sockets on which
    [close()] was called, followed by the socket that the manager holds, are
    the sockets constructed, each once and in order: at most one socket is
    not closed, and a final [disconnect] closes it. *)
Theorem every_socket_is_closed_or_held
  (options : WebSocketManagerOptions) (calls : list call) :
  (forall url, In (connect_call url) calls ->
     exists s, new_WebSocket url = Normal s) ->
  let '(this, out) := invoke_all new_WebSocket (constructor options) calls in
  (closed out ++ held this)%list = created new_WebSocket calls
  /\ (List.length (held this) <= 1)%nat
  /\ closed (snd (disconnect this)) = held this.
Proof.
  intros Hok.
  pose proof (invoke_all_accounting calls Hok (constructor options)) as H.
  destruct (invoke_all new_WebSocket (constructor options) calls) as [this out].
  cbn [fst snd] in H. split; [exact H |].
  unfold held, disconnect, closed. destruct (socket this); cbn; auto.
Qed.

End AdapterCalls.

Section AdapterEvents.

Context {N : JsNumber}.
Variable JSON_parse : string -> completion OrderbookData.
Variable new_WebSocket : string -> completion WebSocket.

(** X8. When the constructor returns a connecting socket, [isConnected]
    is false after [connect], whatever the manager held before; it is true
    once the socket has opened, still true after every message, and false
    after the close event. *)
Theorem isConnected_follows_the_socket
  (this : WebSocketManager) (url : string) (s : WebSocket) :
  new_WebSocket url = Normal s -> readyState s = CONNECTING ->
  let connecting := fst (connect new_WebSocket this url) in
  let opened := fst (dispatch JSON_parse connecting open_event) in
  let received :=
    fun raw t0 t1 => fst (dispatch JSON_parse opened (message_event raw t0 t1)) in
  let closed := fst (dispatch JSON_parse opened close_event) in
  isConnected connecting = false
  /\ isConnected opened = true
  /\ (forall raw t0 t1, isConnected (received raw t0 t1) = true)
  /\ isConnected closed = false.
Proof.
  intros Hnew Hstate. unfold connect. rewrite Hnew.
  cbn. unfold isConnected. cbn. rewrite Hstate. repeat split.
Qed.

(** X11. Handling a message never changes the manager.  Its effects are
    one of three: a line on the console (the text does not parse), one call
    of [onMessage] with the parsed data and the measured time, or that call
    followed by a line on the console (the callback threw).  It never calls
    [onOpen], [onError] or [onClose]. *)
Theorem message_handling_is_contained
  (this : WebSocketManager) (raw : string) (startTime endTime : number) :
  let '(this1, out) :=
    dispatch JSON_parse this (message_event raw startTime endTime) in
  this1 = this
  /\ (out = [console_error "Error processing message:"]
      \/ exists data,
           JSON_parse raw = Normal data
           /\ (out = [onMessage_called data (endTime - startTime)%js]
               \/ out = [onMessage_called data (endTime - startTime)%js;
                         console_error "Error processing message:"])).
Proof.
  cbn. unfold onmessage.
  destruct (JSON_parse raw) as [data | e]; [| auto].
  split; [reflexivity |]. right. exists data. split; [reflexivity |].
  destruct (onMessage (options this) data _); auto.
Qed.

End AdapterEvents.

Lemma isConnected_follows_the_socket_witness :
  let connecting :=
    fst (connect connecting_socket (@open_manager Double.js)
           "wss://feed"%string) in
  let opened := fst (dispatch parse_table connecting open_event) in
  isConnected connecting = false
  /\ isConnected opened = true
  /\ isConnected (fst (dispatch parse_table opened close_event)) = false.
Proof.
  destruct (@isConnected_follows_the_socket Double.js parse_table
              connecting_socket open_manager "wss://feed"%string
              {| url := "wss://feed"%string; readyState := CONNECTING |}
              eq_refl eq_refl)
    as (H1 & H2 & _ & H4).
  repeat split; assumption.
Defined.

Lemma connect_failure_witness :
  isConnected
    (fst (connect rejecting_constructor (@open_manager Double.js)
            "wss://feed"%string))
  = false
  /\ In onError_called
       (snd (connect rejecting_constructor (@open_manager Double.js)
               "wss://feed"%string)).
Proof.
  pose proof (@connect_failure Double.js rejecting_constructor open_manager
                "wss://feed"%string SyntaxError eq_refl) as H.
  destruct (connect rejecting_constructor open_manager "wss://feed"%string)
    as [this1 out].
  destruct H as (H1 & _ & _ & _ & H5 & _).
  split; [exact H1 |]. apply H5. reflexivity.
Defined.

Lemma every_socket_is_closed_or_held_witness :
  let calls :=
    [connect_call "wss://a"%string; connect_call "wss://b"%string; disconnect_call;
     connect_call "wss://c"%string] in
  let '(this, out) :=
    invoke_all connecting_socket
      (constructor (options (@open_manager Double.js))) calls in
  (closed out ++ held this)%list = created connecting_socket calls
  /\ (List.length (held this) <= 1)%nat
  /\ closed (snd (disconnect this)) = held this.
Proof.
  apply (@every_socket_is_closed_or_held Double.js connecting_socket
           (options open_manager)).
  intros url _. eexists. reflexivity.
Defined.

(* ===================================================================== *)
(** * 17. Bounds on the fee *)
(* ===================================================================== *)

Section Bounds.

Import Ideal Spec IdealLaws Measures.
#[local] Existing Instance Ideal.js.
Local Open Scope R_scope.

Implicit Types x y z : @number Ideal.js.

Lemma Forall_firstn {A : Type} (P : A -> Prop) (n : nat) (l : list A) :
  Forall P l -> Forall P (firstn n l).
Proof.
  intros H. revert n. induction H as [| a l Ha _ IH]; intros [| n]; cbn;
    constructor; auto.
Qed.

Lemma fee_literals_truthy :
  ToBoolean (lit 0.001) = true /\ ToBoolean (lit 0.0008) = true
  /\ ToBoolean (lit 0.0005) = true.
Proof.
  cbn. repeat split;
    match goal with |- context [Req_dec_T ?a 0] => destruct (Req_dec_T a 0) end;
    try reflexivity; lra.
Qed.

Lemma fee_rate_range tier :
  Q2R 0.0005 <= Q2R (fee_rate tier) <= Q2R 0.001.
Proof.
  unfold fee_rate.
  destruct (String.eqb tier "tier2"); [lra |].
  destruct (String.eqb tier "tier3"); lra.
Qed.

(** X4. For a non-negative quantity and every tier name that
    [Object.prototype] does not define, known or not, the fee is a number
    between 0.05 percent and 0.1 percent of the quantity. *)
Theorem fees_between_the_lowest_and_highest_rate q tier :
  0 <= q -> existsb (String.eqb tier) Object_prototype = false ->
  exists f,
    calculateFees (Fin q) tier = Fin f /\ 0.0005 * q <= f <= 0.001 * q.
Proof.
  intros Hq Hproto.
  destruct fee_literals_truthy as (T1 & T2 & T3).
  rewrite (@calculateFees_table Ideal.js (Fin q) tier T1 T2 T3 Hproto).
  pose proof (fee_rate_range tier) as Hrate.
  eexists; split; [reflexivity |]. cbn [Q2R]. nra.
Qed.

(** ** At the concrete inputs *)

Ltac read_decimals :=
  unfold Spec.price, parseFloat;
  repeat match goal with
  | |- context [StrDecimalLiteral (TrimStart ?s)] =>
      let v := eval vm_compute in (StrDecimalLiteral (TrimStart s)) in
      change (StrDecimalLiteral (TrimStart s)) with v
  end;
  cbn [real_of lit js fst snd].

Lemma small_book_best_bid : best (bids small_book) = Fin 99.
Proof.
  unfold best, small_book. cbn [book bids]. read_decimals. f_equal. lra.
Qed.

Lemma small_book_best_ask : best (asks small_book) = Fin 101.
Proof.
  unfold best, small_book. cbn [book asks]. read_decimals. f_equal. lra.
Qed.

Lemma fees_between_the_lowest_and_highest_rate_witness :
  exists f,
    calculateFees (Fin 1000) "vip" = Fin f
    /\ 0.0005 * 1000 <= f <= 0.001 * 1000.
Proof.
  apply (@fees_between_the_lowest_and_highest_rate 1000 "vip");
    [lra | reflexivity].
Defined.

End Bounds.

(* ===================================================================== *)
(** * 18. The chart and the latency panel *)
(* ===================================================================== *)

Section Chart.

Import Ideal Spec IdealLaws Measures.
#[local] Existing Instance Ideal.js.
#[local] Existing Instance Order.ideal.
Local Open Scope R_scope.

Import OrderbookVisualizer.






(** X13. The mid price of the chart is 0 when a side of the book is empty.
    On a valid snapshot whose best ask [a] and best bid [b] add up to at
    most 1e308, it is a number between the best bid and the best ask.  The
    bound is what keeps the sum [bestAsk + bestBid] within the range of
    binary64: on [huge_price_book], where it is 2e308, the runtime's sum is
    [Infinity] and so is the mid price ([midPrice_overflows]). *)
Theorem midPrice_between_best_bid_and_best_ask ob a b :
  (asks ob = [] \/ bids ob = [] -> midPrice ob = lit 0)
  /\ (valid_snapshot ob ->
      best (asks ob) = Fin a -> best (bids ob) = Fin b -> a + b <= 1e308 ->
      exists m, midPrice ob = Fin m /\ b <= m <= a).
Proof.
  split.
  - unfold midPrice. intros [-> | ->]; [reflexivity |].
    destruct (asks ob); reflexivity.
  - intros V Ea Eb _.
    destruct (best_nonneg (asks_nonempty V) (asks_levels V))
      as (la & las & a' & Ha & Hpa & _).
    destruct (best_nonneg (bids_nonempty V) (bids_levels V))
      as (lb & lbs & b' & Hb & Hpb & _).
    pose proof (@not_crossed ob V la lb) as Hcross.
    unfold midPrice, best in *. rewrite Ha, Hb in *.
    specialize (Hcross eq_refl eq_refl). unfold Spec.price in Hcross.
    rewrite Hpa, Hpb in *. cbn [real_of] in Hcross.
    injection Ea as ->. injection Eb as ->.
    exists ((a + b) / 2). split; [| lra].
    cbv zeta. change (@add js (Fin a) (Fin b)) with (Fin (a + b)).
    rewrite lit_Fin, div_Fin by lra. f_equal. lra.
Qed.

(** In binary64 the mid price of [huge_price_book], a valid snapshot whose
    two best prices are 1e308, is [Infinity]. *)
Lemma midPrice_overflows :
  valid_snapshot huge_price_book
  /\ midPrice (N:=Double.js) huge_price_book = Infinity.
Proof. split; [exact huge_price_book_valid | reflexivity]. Qed.


(** ** The chart *)

Lemma insert_Permutation (r : row) (l : list row) :
  Permutation (insert r l) (r :: l).
Proof.
  induction l as [| r' l IH]; cbn [insert]; [reflexivity |].
  destruct (gt _ _); [reflexivity |].
  rewrite IH. apply perm_swap.
Qed.

Lemma sort_Permutation (l : list row) : Permutation (sort l) l.
Proof.
  unfold sort.
  assert (H : forall acc,
    Permutation (fold_left (fun sorted r => insert r sorted) l acc)
      (l ++ acc)%list).
  { induction l as [| r l IH]; intros acc; cbn [fold_left]; [reflexivity |].
    rewrite IH, insert_Permutation. cbn.
    symmetry. apply Permutation_middle. }
  rewrite H, app_nil_r. reflexivity.
Qed.

Lemma insert_head (r : row) (l : list row) :
  forall r0, HdRel price_le r0 l -> price_le r0 r ->
  HdRel price_le r0 (insert r l).
Proof.
  intros r0 Hhd Hr0.
  destruct l as [| r' l]; cbn [insert]; [constructor; exact Hr0 |].
  destruct (gt _ _); constructor; [exact Hr0 |].
  inversion Hhd; assumption.
Qed.

Lemma insert_Sorted (r : row) (l : list row) :
  priced r -> Forall priced l -> Sorted price_le l ->
  Sorted price_le (insert r l).
Proof.
  intros [p Hp] Hl Hs.
  induction l as [| r' l IH]; cbn [insert].
  - repeat constructor.
  - inversion Hl as [| ? ? [p' Hp'] Hl']; subst.
    inversion Hs as [| ? ? Hs' Hhd]; subst.
    destruct (gt _ _) eqn:Hgt.
    + constructor; [exact Hs |]. constructor.
      rewrite Hp, Hp' in Hgt. cbn in Hgt.
      unfold price_le. rewrite Hp, Hp'. cbn.
      destruct (Rlt_dec (Q2R 0) (p' + - p)); [lra | discriminate].
    + constructor; [apply IH; assumption |].
      apply (@insert_head r l r' Hhd).
      rewrite Hp, Hp' in Hgt. cbn in Hgt.
      unfold price_le. rewrite Hp, Hp'. cbn.
      destruct (Rlt_dec (Q2R 0) (p' + - p)); [discriminate | lra].
Qed.

Lemma insert_priced (r : row) (l : list row) :
  priced r -> Forall priced l -> Forall priced (insert r l).
Proof.
  intros Hr Hl.
  apply (Permutation_Forall (Permutation_sym (insert_Permutation r l))).
  constructor; assumption.
Qed.

Lemma sort_Sorted (l : list row) :
  Forall priced l -> Sorted price_le (sort l).
Proof.
  unfold sort. intros Hl.
  assert (H : forall acc, Forall priced acc -> Sorted price_le acc ->
    Sorted price_le (fold_left (fun sorted r => insert r sorted) l acc)).
  { induction Hl as [| r l Hr _ IH]; intros acc Hacc Hs; cbn [fold_left];
      [exact Hs |].
    apply IH; [apply insert_priced | apply insert_Sorted]; assumption. }
  apply H; constructor.
Qed.

Lemma rows_priced (kind : string) (side : list level) :
  Forall valid_level side -> Forall priced (rows kind side).
Proof.
  intros H. unfold rows. apply Forall_map.
  eapply Forall_impl; [| exact (Forall_firstn 10 H)].
  intros l [(p & Hp & _) _]. exists p. exact Hp.
Qed.

(** X15. When the levels of the book are valid, the bars of the chart are
    in ascending order of price; they are the first ten asks and the first
    ten bids, each once, and nothing else. *)
Theorem chartData_is_sorted_by_price ob :
  Forall valid_level (asks ob) -> Forall valid_level (bids ob) ->
  Sorted price_le (chartData ob)
  /\ Permutation (chartData ob)
       (rows "ask" (asks ob) ++ rows "bid" (bids ob))%list
  /\ List.length (chartData ob)
     = (Nat.min 10 (List.length (asks ob))
        + Nat.min 10 (List.length (bids ob)))%nat.
Proof.
  intros Ha Hb. unfold chartData. cbv zeta.
  split; [| split].
  - apply sort_Sorted. apply Forall_app. split; apply rows_priced; assumption.
  - apply sort_Permutation.
  - rewrite (Permutation_length (sort_Permutation _)).
    unfold rows. rewrite length_app, !length_map, !length_firstn. reflexivity.
Qed.


(** ** The latency panel *)

(** X16. For non-negative latencies the percentage of the progress bar is
    a number between 0 and 100, it does not decrease when the latency grows,
    and it is 100 exactly from 300 ms on. *)
Theorem getLatencyPercentage_range l1 l2 :
  0 <= l1 <= l2 ->
  exists p1 p2,
    PerformanceMetrics.getLatencyPercentage (Fin l1) = Fin p1
    /\ PerformanceMetrics.getLatencyPercentage (Fin l2) = Fin p2
    /\ 0 <= p1 <= p2 /\ p2 <= 100
    /\ (p2 = 100 <-> 300 <= l2).
Proof.
  intros H. unfold PerformanceMetrics.getLatencyPercentage. cbv zeta.
  rewrite !lit_Fin, !div_Fin by lra.
  change (@mul js (Fin (l1 / Q2R 300)) (Fin (Q2R 100)))
    with (Fin (l1 / Q2R 300 * Q2R 100)).
  change (@mul js (Fin (l2 / Q2R 300)) (Fin (Q2R 100)))
    with (Fin (l2 / Q2R 300 * Q2R 100)).
  rewrite !min_Fin. eexists; eexists.
  split; [reflexivity |]. split; [reflexivity |].
  unfold Rmin.
  destruct (Rle_dec (l1 / Q2R 300 * Q2R 100) (Q2R 100)),
           (Rle_dec (l2 / Q2R 300 * Q2R 100) (Q2R 100));
    repeat split; intros; lra.
Qed.

(** X17. For every latency that is a number, negative and zero included,
    the displayed rate is a positive number of at most 1000 ticks per second:
    it is 1000 up to 1 ms and [1000 / latency] from 1 ms on; the division is
    never by zero. *)
Theorem ticksPerSecond_range l :
  exists t,
    PerformanceMetrics.ticksPerSecond (Fin l) = Fin t
    /\ 0 < t <= 1000
    /\ (l <= 1 -> t = 1000)
    /\ (1 <= l -> t = 1000 / l).
Proof.
  unfold PerformanceMetrics.ticksPerSecond.
  rewrite !lit_Fin, max_Fin.
  assert (Hmax : 1 <= Rmax l (Q2R 1)).
  { unfold Rmax. destruct (Rle_dec l (Q2R 1)); lra. }
  rewrite div_Fin by lra.
  eexists; split; [reflexivity |].
  assert (Hinv : 0 < / Rmax l (Q2R 1)) by (apply Rinv_0_lt_compat; lra).
  assert (Hone : Rmax l (Q2R 1) * / Rmax l (Q2R 1) = 1)
    by (apply Rinv_r; lra).
  unfold Rdiv. repeat split.
  - nra.
  - nra.
  - intros Hl. unfold Rmax in *. destruct (Rle_dec l (Q2R 1)); [| lra].
    replace (Q2R 1) with 1 by lra. rewrite Rinv_1. lra.
  - intros Hl. unfold Rmax. destruct (Rle_dec l (Q2R 1)); [| lra].
    replace l with (Q2R 1) by lra. lra.
Qed.


(** ** At the concrete inputs *)


Lemma midPrice_between_best_bid_and_best_ask_witness :
  midPrice no_asks_book = lit 0
  /\ exists m, midPrice small_book = Fin m /\ 99 <= m <= 101.
Proof.
  split.
  - apply (proj1 (midPrice_between_best_bid_and_best_ask no_asks_book 0 0)).
    left. reflexivity.
  - apply (proj2 (midPrice_between_best_bid_and_best_ask small_book 101 99)).
    + exact small_book_valid.
    + exact small_book_best_ask.
    + exact small_book_best_bid.
    + lra.
Defined.

Lemma chartData_is_sorted_by_price_witness :
  Sorted price_le (chartData small_book)
  /\ List.length (chartData small_book) = 4%nat.
Proof.
  destruct (@chartData_is_sorted_by_price small_book
              (asks_levels small_book_valid) (bids_levels small_book_valid))
    as (H1 & _ & H3).
  split; [exact H1 | exact H3].
Defined.

Lemma getLatencyPercentage_range_witness :
  exists p1 p2,
    PerformanceMetrics.getLatencyPercentage (Fin 30) = Fin p1
    /\ PerformanceMetrics.getLatencyPercentage (Fin 450) = Fin p2
    /\ 0 <= p1 <= p2 /\ p2 <= 100
    /\ (p2 = 100 <-> 300 <= 450).
Proof.
  apply (@getLatencyPercentage_range 30 450). lra.
Defined.

Lemma ticksPerSecond_range_witness :
  PerformanceMetrics.ticksPerSecond (Fin 0) = Fin 1000.
Proof.
  destruct (ticksPerSecond_range 0) as (t & E & _ & H & _).
  rewrite E. f_equal. apply H. lra.
Defined.

End Chart.
